(** * Wild Whatcom dashboard: the data pipeline and its consumers

    A shallow embedding of the data-processing script described in the
    implementation plan ([scripts/process_data.py]: [clean_currency],
    [safe_float], [safe_divide], [load_summary_data],
    [calculate_sankey_data], [main]) and of the arithmetic done by the
    React pages ([calculateVariance], the payroll/operations split).

    Numbers.  Python floats are idealised as rationals ([Q]): the rounding
    of float arithmetic, NaN and the infinities are left out on the Python
    side, where every division is guarded or raises.  The conversion of a
    Python [int] by [float] is modelled exactly, with its rounding to 53
    bits and its [OverflowError].  JavaScript numbers keep their non-finite
    values (module [JS]), because an unguarded division there produces
    them.

    Strings.  A Python [str] is modelled as a string of 8-bit characters;
    the model agrees with Python on ASCII strings ([Str.is_ascii]), and
    the statements about cleaning and stripping are made for those.

    Effects.  A Python function is a computation over a [World] (the csv
    files it can read, the lines printed, the output directory, the JSON
    files written) that returns a value or raises an exception. *)

From Stdlib Require Import ZArith QArith Qabs Qminmax List String Ascii Bool Lia Lqa.
Import ListNotations.

Local Open Scope string_scope.
Local Open Scope Q_scope.

(** ** Python strings *)

Module Str.

(** [s.startswith(p)] *)
Definition startswith (p s : string) : bool := String.prefix p s.

(** [s.replace(c, '')] for a one-character [c]. *)
Fixpoint remove (c : ascii) (s : string) : string :=
  match s with
  | EmptyString => EmptyString
  | String a r => if Ascii.eqb a c then remove c r else String a (remove c r)
  end.

(** [str.isspace] on the ASCII range: tab, line feed, vertical tab, form
    feed, carriage return, the four separators 28..31 and the space. *)
Definition isspace (a : ascii) : bool :=
  let n := nat_of_ascii a in
  ((9 <=? n) && (n <=? 13) || (28 <=? n) && (n <=? 32))%nat.

Fixpoint lstrip (s : string) : string :=
  match s with
  | EmptyString => EmptyString
  | String a r => if isspace a then lstrip r else s
  end.

Definition reverse (s : string) : string :=
  string_of_list_ascii (rev (list_ascii_of_string s)).

Definition rstrip (s : string) : string := reverse (lstrip (reverse s)).

(** [s.strip()], for an ASCII string (beyond ASCII Python also strips
    the Unicode white space, which this model leaves in place). *)
Definition strip (s : string) : string := rstrip (lstrip s).

(** [c in s] *)
Fixpoint contains (c : ascii) (s : string) : bool :=
  match s with
  | EmptyString => false
  | String a r => Ascii.eqb a c || contains c r
  end.

Definition is_empty (s : string) : bool :=
  match s with EmptyString => true | _ => false end.

(** [s.isascii()]: every character is below 128. *)
Definition is_ascii (s : string) : bool :=
  forallb (fun a => (nat_of_ascii a <? 128)%nat) (list_ascii_of_string s).

End Str.

(** ** Values, exceptions and the world *)

(** What a cell of a DataFrame (or any scalar argument of the helpers) can
    be.  [Missing] stands for every value on which [pd.isna] is true (None,
    NaN, pd.NA).  [PyObj c] is any other scalar, one that is neither an
    [int], a [float] nor a [str] (a numpy integer, a timestamp); [c] is
    what [float(obj)] gives for it, [None] when that call raises. *)
Inductive RawCell : Type :=
| Missing
| PyInt (z : Z)
| PyFloat (q : Q)
| PyStr (s : string)
| PyObj (as_float : option Q).

(** JSON documents, as [json.dump] writes them. *)
#[local] Set Warnings "-register-all".
Inductive Json : Type :=
| JNum (q : Q)
| JStr (s : string)
| JArr (items : list Json)
| JObj (fields : list (string * Json)).
#[local] Set Warnings "register-all".

(** Python exceptions that the modelled code can meet.  [ValueError s] is
    the one raised by [float(s)] ("could not convert string to float: s"):
    it carries the string handed to [float], nothing else. *)
Inductive Exn : Type :=
| ValueError (arg : string)
| ZeroDivisionError
| OverflowError
| FileNotFoundError (path : string)
| IndexError
| KeyError (key : string)
| OtherError (name : string).

Definition DataFrame : Type := list (list RawCell).

Record World : Type := mkWorld {
  files : list (string * DataFrame);   (* csv files under DATA_DIR *)
  stdout : list string;                (* lines printed so far *)
  output_dir : bool;                   (* OUTPUT_DIR exists *)
  written : list (string * Json)       (* files written under OUTPUT_DIR *)
}.

Inductive Outcome (A : Type) : Type :=
| Returned (a : A)
| Raised (e : Exn).
Arguments Returned {A} a.
Arguments Raised {A} e.

(** ** The monad of Python computations *)

Definition Py (A : Type) : Type := World -> Outcome A * World.

Definition ret {A} (a : A) : Py A := fun w => (Returned a, w).

Definition raise {A} (e : Exn) : Py A := fun w => (Raised e, w).

Definition bind {A B} (m : Py A) (k : A -> Py B) : Py B :=
  fun w =>
    match m w with
    | (Returned a, w') => k a w'
    | (Raised e, w') => (Raised e, w')
    end.

(** [try: m  except: h] with a bare [except]. *)
Definition try_except {A} (m : Py A) (h : Py A) : Py A :=
  fun w =>
    match m w with
    | (Returned a, w') => (Returned a, w')
    | (Raised _, w') => h w'
    end.

(** A function of the input files alone, run as a computation. *)
Definition reading {A} (f : list (string * DataFrame) -> Outcome A) : Py A :=
  fun w => (f (files w), w).

Declare Scope py_scope.
Delimit Scope py_scope with py.
Notation "x <- m ;; k" := (bind m (fun x => k))
  (at level 61, m at next level, right associativity) : py_scope.
Notation "m ;;; k" := (bind m (fun _ => k))
  (at level 61, right associativity) : py_scope.
Local Open Scope py_scope.

Definition print (line : string) : Py unit :=
  fun w => (Returned tt,
            mkWorld (files w) (stdout w ++ [line])%list (output_dir w) (written w)).

(** [OUTPUT_DIR.mkdir(parents=True, exist_ok=True)] *)
Definition mkdir_output : Py unit :=
  fun w => (Returned tt, mkWorld (files w) (stdout w) true (written w)).

(** [with open(OUTPUT_DIR / name, 'w') as f: json.dump(doc, f, indent=2)] *)
Definition json_dump (name : string) (doc : Json) : Py unit :=
  fun w => (Returned tt,
            mkWorld (files w) (stdout w) (output_dir w) (written w ++ [(name, doc)])%list).

(** The lines printed between two worlds: the only channel through which
    the script could report a diagnostic or a warning. *)
Definition emitted (before after : World) : list string :=
  skipn (List.length (stdout before)) (stdout after).

(** ** Helper functions (section 3.2 of the plan) *)

(** Python's division of two floats (the operands the pipeline passes are
    the floats produced by the normalizer). *)
Definition py_div (numerator denominator : Q) : Py Q :=
  if Qeq_bool denominator 0 then raise ZeroDivisionError
  else ret (numerator / denominator).

(** [safe_divide] *)
Definition safe_divide (numerator denominator : Q) : Py Q :=
  if Qeq_bool denominator 0 then ret 0
  else py_div numerator denominator.

(** A non-negative integer rounded to the nearest integer with at most 53
    significant bits, ties going to the even one: the value [float(n)]
    takes before its range is checked. *)
Definition round_to_double (n : Z) : Z :=
  let bits := (Z.log2 n + 1)%Z in
  if (bits <=? 53)%Z then n
  else
    let shift := (bits - 53)%Z in
    let q := Z.shiftr n shift in
    let r := (n mod 2 ^ shift)%Z in
    let half := (2 ^ (shift - 1))%Z in
    let q' := if (half <? r)%Z || ((r =? half)%Z && Z.odd q)
              then (q + 1)%Z else q in
    Z.shiftl q' shift.

(** Python's builtin [float] on an [int]: [None] when it raises
    [OverflowError] ("int too large to convert to float"), which it does
    when the rounded magnitude reaches 2^1024. *)
Definition float_of_int (z : Z) : option Q :=
  let m := round_to_double (Z.abs z) in
  if (2 ^ 1024 <=? m)%Z then None
  else Some (inject_Z (Z.sgn z * m)).

Definition py_float_of_int (z : Z) : Py Q :=
  match float_of_int z with
  | Some q => ret q
  | None => raise OverflowError
  end.

Section Helpers.

(** Python's builtin [float] on a [str]: [Some q] when the text denotes
    the number [q], [None] when [float] raises [ValueError]. *)
Variable float_of_str : string -> option Q.

Definition py_float (s : string) : Py Q :=
  match float_of_str s with
  | Some q => ret q
  | None => raise (ValueError s)
  end.

(** [value.replace('$', '').replace(',', '').strip()] *)
Definition cleaned_of (value : string) : string :=
  Str.strip (Str.remove "," (Str.remove "$" value)).

(** [clean_currency] *)
Definition clean_currency (value : RawCell) : Py Q :=
  match value with
  | Missing => ret 0
  | PyInt z => py_float_of_int z
  | PyFloat q => ret q
  | PyStr s =>
      if Str.startswith "#" s || Str.is_empty s then ret 0
      else
        let cleaned := cleaned_of s in
        if Str.is_empty cleaned then ret 0 else py_float cleaned
  | PyObj _ => ret 0
  end.

(** [safe_float] *)
Definition safe_float (value : RawCell) : Py Q :=
  match value with
  | Missing => ret 0
  | PyInt z => py_float_of_int z
  | PyFloat q => ret q
  | PyStr s =>
      if Str.startswith "#" s then ret 0
      else try_except (py_float s) (ret 0)
  | PyObj c =>
      try_except (match c with
                  | Some q => ret q
                  | None => raise (OtherError "TypeError")
                  end)
                 (ret 0)
  end.

End Helpers.

(** ** Records of the annual data *)

(** One category: [{'actual': ..., 'budgeted': ...}]. *)
Record Category : Type := mkCategory {
  actual : Q;
  budgeted : Q
}.

(** [annual_data['revenue']]: the six categories read by the pages and by
    the Sankey builder, and the [total] entry. *)
Record Revenue : Type := mkRevenue {
  contributions : Category;
  grants : Category;
  earned_revenue : Category;
  fundraising_events : Category;
  sponsorships : Category;
  other : Category;
  revenue_total : Category
}.

(** [annual_data['expenses']] *)
Record Expenses : Type := mkExpenses {
  salaries_wages : Category;
  payroll_taxes : Category;
  benefits : Category;
  expenses_total : Category
}.

(** [annual_data['reserves']] *)
Record Reserves : Type := mkReserves {
  current_reserves : Q;
  months_reserve : Q
}.

Record AnnualData : Type := mkAnnualData {
  revenue : Revenue;
  expenses : Expenses;
  reserves : Reserves
}.

(** The dictionary returned by [calculate_sankey_data]; the four lists
    are aligned by position. *)
Record SankeyData : Type := mkSankey {
  labels : list string;
  sources : list nat;
  targets : list nat;
  values : list Q
}.

(** ** Sankey data (section 3.5 of the plan) *)

Definition sankey_labels : list string :=
  ["Contributions"; "Grants"; "Earned Revenue"; "Events"; "Sponsorships";
   "Other"; "Organization"; "Payroll"; "Operations"].

(** Index of the central node in [sankey_labels]. *)
Definition hub : nat := 6.

Definition payroll_total_of (e : Expenses) : Q :=
  actual (salaries_wages e) + actual (payroll_taxes e) + actual (benefits e).

Definition operations_total_of (e : Expenses) : Q :=
  actual (expenses_total e) - payroll_total_of e.

(** [calculate_sankey_data].  The plan abbreviates the list of revenue
    values after its first two entries; the other four are the remaining
    categories in the order of the labels.  [expenses] is
    [annual_data['expenses']]. *)
Definition calculate_sankey_data (annual_data : AnnualData) : Py SankeyData :=
  let revenue := revenue annual_data in
  let expenses := expenses annual_data in
  let sources := [0; 1; 2; 3; 4; 5]%nat in
  let targets := [6; 6; 6; 6; 6; 6]%nat in
  let values := [actual (contributions revenue);
                 actual (grants revenue);
                 actual (earned_revenue revenue);
                 actual (fundraising_events revenue);
                 actual (sponsorships revenue);
                 actual (other revenue)] in
  let payroll_total := payroll_total_of expenses in
  let operations_total := actual (expenses_total expenses) - payroll_total in
  let sources := (sources ++ [6; 6]%nat)%list in
  let targets := (targets ++ [7; 8]%nat)%list in
  let values := (values ++ [payroll_total; operations_total])%list in
  ret (mkSankey sankey_labels sources targets values).

(** The edges of a Sankey record: [(sources[i], targets[i], values[i])]. *)
Definition edges (d : SankeyData) : list (nat * nat * Q) :=
  combine (combine (sources d) (targets d)) (values d).

Definition Qsum (l : list Q) : Q := fold_right Qplus 0 l.

(** Sum of the values of the edges that enter / leave a node. *)
Definition inflow (d : SankeyData) (node : nat) : Q :=
  Qsum (map snd (filter (fun e => Nat.eqb (snd (fst e)) node) (edges d))).

Definition outflow (d : SankeyData) (node : nat) : Q :=
  Qsum (map snd (filter (fun e => Nat.eqb (fst (fst e)) node) (edges d))).

(** Equality within a relative tolerance of 1e-6. *)
Definition close_enough (a b : Q) : bool :=
  Qle_bool (Qabs (a - b)) ((1 # 1000000) * Qmax (Qabs a) (Qabs b)).

(** Conservation at the central node, within the tolerance. *)
Definition hub_conserved (d : SankeyData) : bool :=
  close_enough (inflow d hub) (outflow d hub).

(** The six revenue actuals, in the order of the labels. *)
Definition revenue_actuals (r : Revenue) : list Q :=
  [actual (contributions r); actual (grants r); actual (earned_revenue r);
   actual (fundraising_events r); actual (sponsorships r); actual (other r)].

(** Whether the [total] entry of a revenue record carries the sums of the
    six categories' [actual] and [budgeted] values, within the
    tolerance. *)
Definition revenue_total_consistent (r : Revenue) : bool :=
  close_enough (actual (revenue_total r)) (Qsum (revenue_actuals r))
  && close_enough (budgeted (revenue_total r))
       (budgeted (contributions r) + budgeted (grants r)
        + budgeted (earned_revenue r) + budgeted (fundraising_events r)
        + budgeted (sponsorships r) + budgeted (other r)).

(** The same for an expense record and its three categories. *)
Definition expense_total_consistent (e : Expenses) : bool :=
  close_enough (actual (expenses_total e)) (payroll_total_of e)
  && close_enough (budgeted (expenses_total e))
       (budgeted (salaries_wages e) + budgeted (payroll_taxes e)
        + budgeted (benefits e)).

(** ** Reserve health (section 3.6 of the plan) *)

Inductive Health : Type := good | warning | critical.

Definition health_name (h : Health) : string :=
  match h with
  | good => "good"
  | warning => "warning"
  | critical => "critical"
  end.

(** ['good' if months >= 3 else 'warning' if months >= 2 else 'critical'] *)
Definition reserve_health (months : Q) : Health :=
  if Qle_bool 3 months then good
  else if Qle_bool 2 months then warning
  else critical.

(** ** Reading the csv files (sections 3.3 and 3.4 of the plan) *)

Definition summary_csv : string :=
  "Updated WW Long term financial planning FY19-FY25 - Summary.csv".

Fixpoint lookup_file (name : string) (fs : list (string * DataFrame))
  : option DataFrame :=
  match fs with
  | [] => None
  | (n, df) :: rest => if String.eqb n name then Some df else lookup_file name rest
  end.

(** [pd.read_csv(DATA_DIR / name)]: the rows after the header row. *)
Definition read_csv (name : string) : Py DataFrame :=
  fun w =>
    match lookup_file name (files w) with
    | Some df => (Returned df, w)
    | None => (Raised (FileNotFoundError name), w)
    end.

(** The cell at a position of the grid, if the position is inside it. *)
Definition cell (df : DataFrame) (row col : nat) : option RawCell :=
  match nth_error df row with
  | Some cells => nth_error cells col
  | None => None
  end.

(** [df.iloc[row, col]] *)
Definition iloc (df : DataFrame) (row col : nat) : Py RawCell :=
  match cell df row col with
  | Some c => ret c
  | None => raise IndexError
  end.

(** The part of [income_trends] that the plan spells out. *)
Record IncomeTrends : Type := mkIncomeTrends {
  years : list string;
  program_revenue : list Q;
  individual_donors : list Q
}.

Definition fiscal_years : list string :=
  ["FY19"; "FY20"; "FY21"; "FY22"; "FY23"; "FY24"; "FY25"; "FY26"; "FY27";
   "FY28"; "FY29"].

Section Pipeline.

Variable float_of_str : string -> option Q.

(** The three loaders whose bodies the plan does not give.  Like
    [load_summary_data] each reads its csv file and picks cells out of
    it, so each is a function of the input files that returns its
    dictionary or raises. *)
Variable load_fy26_annual_data : list (string * DataFrame) -> Outcome AnnualData.
Variable load_program_data : list (string * DataFrame) -> Outcome Json.
Variable load_monthly_cashflow : list (string * DataFrame) -> Outcome Json.

(** The body of [for col_idx in range(2, 13)] in [load_summary_data],
    over the columns still to visit. *)
Fixpoint summary_columns (df : DataFrame) (cols : list nat)
    (income_trends : IncomeTrends) : Py IncomeTrends :=
  match cols with
  | [] => ret income_trends
  | col_idx :: rest =>
      c17 <- iloc df 17 col_idx ;;
      v17 <- clean_currency float_of_str c17 ;;
      c18 <- iloc df 18 col_idx ;;
      v18 <- clean_currency float_of_str c18 ;;
      summary_columns df rest
        (mkIncomeTrends (years income_trends)
           (program_revenue income_trends ++ [v17])%list
           (individual_donors income_trends ++ [v18])%list)
  end.

(** [load_summary_data], as far as the plan writes it out: the two
    income categories of rows 17 and 18, columns 2 to 12. *)
Definition load_summary_data : Py IncomeTrends :=
  df <- read_csv summary_csv ;;
  summary_columns df (seq 2 11) (mkIncomeTrends fiscal_years [] []).

(** *** JSON documents written by [main] *)

Definition json_of_category (c : Category) : Json :=
  JObj [("actual", JNum (actual c)); ("budgeted", JNum (budgeted c))].

Definition json_of_revenue (r : Revenue) : Json :=
  JObj [("contributions", json_of_category (contributions r));
        ("grants", json_of_category (grants r));
        ("earned_revenue", json_of_category (earned_revenue r));
        ("fundraising_events", json_of_category (fundraising_events r));
        ("sponsorships", json_of_category (sponsorships r));
        ("other", json_of_category (other r));
        ("total", json_of_category (revenue_total r))].

Definition json_of_expenses (e : Expenses) : Json :=
  JObj [("salaries_wages", json_of_category (salaries_wages e));
        ("payroll_taxes", json_of_category (payroll_taxes e));
        ("benefits", json_of_category (benefits e));
        ("total", json_of_category (expenses_total e))].

Definition json_of_trends (t : IncomeTrends) : Json :=
  JObj [("income_trends",
         JObj [("years", JArr (map JStr (years t)));
               ("program_revenue", JArr (map JNum (program_revenue t)));
               ("individual_donors", JArr (map JNum (individual_donors t)))])].

Definition json_of_nat (n : nat) : Json := JNum (inject_Z (Z.of_nat n)).

Definition json_of_sankey (d : SankeyData) : Json :=
  JObj [("labels", JArr (map JStr (labels d)));
        ("sources", JArr (map json_of_nat (sources d)));
        ("targets", JArr (map json_of_nat (targets d)));
        ("values", JArr (map JNum (values d)))].

(** The entries of [executive_summary] that the plan writes out;
    [months] is [annual_data['reserves']['months_reserve']]. *)
Definition executive_summary_of (annual_data : AnnualData) : Json :=
  let months := months_reserve (reserves annual_data) in
  JObj [("current_reserves", JNum (current_reserves (reserves annual_data)));
        ("months_in_reserve", JNum months);
        ("reserve_health", JStr (health_name (reserve_health months)));
        ("ytd_revenue", JNum (actual (revenue_total (revenue annual_data))))].

(** The seven files under [public/data], in the order the plan lists. *)
Definition output_names : list string :=
  ["executive_summary.json"; "historical_trends.json"; "revenue_data.json";
   "expense_data.json"; "program_data.json"; "cashflow_data.json";
   "sankey_data.json"].

(** [main] *)
Definition main : Py unit :=
  print "Starting data processing..." ;;;
  mkdir_output ;;;
  summary_data <- load_summary_data ;;
  annual_data <- reading load_fy26_annual_data ;;
  program_data <- reading load_program_data ;;
  cashflow_data <- reading load_monthly_cashflow ;;
  sankey_data <- calculate_sankey_data annual_data ;;
  let executive_summary := executive_summary_of annual_data in
  json_dump "executive_summary.json" executive_summary ;;;
  json_dump "historical_trends.json" (json_of_trends summary_data) ;;;
  json_dump "revenue_data.json" (json_of_revenue (revenue annual_data)) ;;;
  json_dump "expense_data.json" (json_of_expenses (expenses annual_data)) ;;;
  json_dump "program_data.json" program_data ;;;
  json_dump "cashflow_data.json" cashflow_data ;;;
  json_dump "sankey_data.json" (json_of_sankey sankey_data) ;;;
  print "✅ Data processing complete!".

(** The world once [main] has announced itself and made sure of the
    output directory. *)
Definition started (w : World) : World :=
  mkWorld (files w) (stdout w ++ ["Starting data processing..."])%list true
          (written w).

(** The seven documents of a run that goes through. *)
Definition outputs_of (summary_data : IncomeTrends) (annual_data : AnnualData)
    (program_data cashflow_data : Json) (sankey_data : SankeyData)
  : list (string * Json) :=
  [("executive_summary.json", executive_summary_of annual_data);
   ("historical_trends.json", json_of_trends summary_data);
   ("revenue_data.json", json_of_revenue (revenue annual_data));
   ("expense_data.json", json_of_expenses (expenses annual_data));
   ("program_data.json", program_data);
   ("cashflow_data.json", cashflow_data);
   ("sankey_data.json", json_of_sankey sankey_data)].

End Pipeline.

(** ** The arithmetic of the React pages *)

Module JS.

(** A JavaScript number: a finite value, an infinity with its sign, or
    NaN.  The sign of zero is not tracked. *)
Inductive number : Type :=
| Num (q : Q)
| Infinity (negative : bool)
| NaN.

Definition negative_q (q : Q) : bool := negb (Qle_bool 0 q).

Definition add (a b : number) : number :=
  match a, b with
  | NaN, _ | _, NaN => NaN
  | Num x, Num y => Num (x + y)
  | Num _, Infinity s => Infinity s
  | Infinity s, Num _ => Infinity s
  | Infinity s, Infinity t => if Bool.eqb s t then Infinity s else NaN
  end.

Definition sub (a b : number) : number :=
  match a, b with
  | NaN, _ | _, NaN => NaN
  | Num x, Num y => Num (x - y)
  | Num _, Infinity s => Infinity (negb s)
  | Infinity s, Num _ => Infinity s
  | Infinity s, Infinity t => if Bool.eqb s t then NaN else Infinity s
  end.

Definition mul (a b : number) : number :=
  match a, b with
  | NaN, _ | _, NaN => NaN
  | Num x, Num y => Num (x * y)
  | Num x, Infinity s | Infinity s, Num x =>
      if Qeq_bool x 0 then NaN else Infinity (xorb s (negative_q x))
  | Infinity s, Infinity t => Infinity (xorb s t)
  end.

Definition div (a b : number) : number :=
  match a, b with
  | NaN, _ | _, NaN => NaN
  | Num x, Num y =>
      if Qeq_bool y 0
      then (if Qeq_bool x 0 then NaN else Infinity (negative_q x))
      else Num (x / y)
  | Num _, Infinity _ => Num 0
  | Infinity s, Num y => Infinity (xorb s (negative_q y))
  | Infinity _, Infinity _ => NaN
  end.

(** Truthiness of a number in a condition. *)
Definition truthy (a : number) : bool :=
  match a with
  | Num q => negb (Qeq_bool q 0)
  | Infinity _ => true
  | NaN => false
  end.

(** RevenuePage.jsx and ExpensePage.jsx:
    [((actual - budgeted) / budgeted) * 100] *)
Definition calculateVariance (actual budgeted : number) : number :=
  mul (div (sub actual budgeted) budgeted) (Num 100).

(** ProgramsPage.jsx:
    [program.budgeted ? ((program.actual - program.budgeted) / program.budgeted * 100) : 0] *)
Definition programVariance (actual budgeted : number) : number :=
  if truthy budgeted
  then mul (div (sub actual budgeted) budgeted) (Num 100)
  else Num 0.

(** RevenuePage.jsx and ExpensePage.jsx, the "% of Total" column:
    [(values.actual / revenue.total.actual) * 100] *)
Definition percentOfTotal (actual total : number) : number :=
  mul (div actual total) (Num 100).

(** ExpensePage.jsx: the payroll and operations split. *)
Definition payrollTotal (salaries_wages payroll_taxes benefits : number) : number :=
  add (add salaries_wages payroll_taxes) benefits.

Definition operationsTotal (total payroll : number) : number :=
  sub total payroll.

End JS.

(** ** A reading of plain decimal literals

    The part of Python's [float] grammar that csv exports of amounts use:
    surrounding white space, an optional sign, digits with an optional
    decimal point.  It instantiates [float_of_str] in the examples. *)

Definition digit_value (a : ascii) : option Z :=
  let n := nat_of_ascii a in
  if ((48 <=? n) && (n <=? 57))%nat then Some (Z.of_nat (n - 48)) else None.

(** Reads a run of digits: the value read, the number of digits, the rest. *)
Fixpoint read_digits (s : string) (acc : Z) (count : nat) : Z * nat * string :=
  match s with
  | EmptyString => (acc, count, s)
  | String a r =>
      match digit_value a with
      | Some d => read_digits r (10 * acc + d) (S count)
      | None => (acc, count, s)
      end
  end.

Definition unsigned_decimal (s : string) : option Q :=
  let '(i, ni, rest) := read_digits s 0 0 in
  match rest with
  | EmptyString => if Nat.eqb ni 0 then None else Some (inject_Z i)
  | String "." r =>
      let '(f, nf, rest') := read_digits r 0 0 in
      match rest' with
      | EmptyString =>
          if Nat.eqb (ni + nf) 0 then None
          else Some (Qred (Qmake (i * 10 ^ Z.of_nat nf + f) (Z.to_pos (10 ^ Z.of_nat nf))))
      | _ => None
      end
  | _ => None
  end.

Definition decimal_of_string (s : string) : option Q :=
  match Str.strip s with
  | String "-" r => option_map Qopp (unsigned_decimal r)
  | String "+" r => unsigned_decimal r
  | t => unsigned_decimal t
  end.

(** ** Sample inputs *)

Definition empty_world : World := mkWorld [] [] false [].

Definition category (a b : Z) : Category := mkCategory (inject_Z a) (inject_Z b).

(** Grants of 50000 are the only revenue; expenses total 40000, of which
    35000 is payroll. *)
Definition sample_annual : AnnualData :=
  mkAnnualData
    (mkRevenue (category 0 0) (category 50000 45000) (category 0 0)
               (category 0 0) (category 0 0) (category 0 0)
               (category 50000 45000))
    (mkExpenses (category 30000 30000) (category 3000 3000)
                (category 2000 2000) (category 40000 42000))
    (mkReserves 120000 (7 # 2)).

(** Payroll of 20 against total expenses of 10. *)
Definition overspent_annual : AnnualData :=
  mkAnnualData (revenue sample_annual)
    (mkExpenses (category 20 20) (category 0 0) (category 0 0) (category 10 10))
    (reserves sample_annual).

(** A summary sheet of 19 rows and 13 columns, empty but for one cell. *)
Definition blank_row : list RawCell := repeat Missing 13.

Definition sheet_with (row17 : list RawCell) : DataFrame :=
  (repeat blank_row 17 ++ [row17; blank_row])%list.

Definition world_with_summary (df : DataFrame) : World :=
  mkWorld [(summary_csv, df)] [] false [].

Definition bad_row : list RawCell :=
  [Missing; Missing; PyStr "$12x"; Missing; Missing; Missing; Missing;
   Missing; Missing; Missing; Missing; Missing; Missing].

(** The summary sheet whose cell at row 17, column 2 reads "$12x". *)
Definition bad_world : World := world_with_summary (sheet_with bad_row).

Definition sample_loader_annual (_ : list (string * DataFrame)) : Outcome AnnualData :=
  Returned sample_annual.

Definition sample_loader_json (_ : list (string * DataFrame)) : Outcome Json :=
  Returned (JObj []).

Definition failing_loader_annual (_ : list (string * DataFrame)) : Outcome AnnualData :=
  Raised (FileNotFoundError "FY 26 Cash Flow Projections (budget+actuals) - Annual.csv").

(** ** More of the pages *)

Module Pages.

(** JavaScript's [<] on numbers; a comparison with NaN is false. *)
Definition lt (a b : JS.number) : bool :=
  match a, b with
  | JS.NaN, _ | _, JS.NaN => false
  | JS.Num x, JS.Num y => negb (Qle_bool y x)
  | JS.Num _, JS.Infinity s => negb s
  | JS.Infinity s, JS.Num _ => s
  | JS.Infinity s, JS.Infinity t => s && negb t
  end.

(** [a > b] *)
Definition gt (a b : JS.number) : bool := lt b a.

(** [a >= b] *)
Definition ge (a b : JS.number) : bool :=
  match a, b with
  | JS.NaN, _ | _, JS.NaN => false
  | _, _ => negb (lt a b)
  end.

(** [Math.min(a, b)] *)
Definition min (a b : JS.number) : JS.number :=
  match a, b with
  | JS.NaN, _ | _, JS.NaN => JS.NaN
  | _, _ => if lt b a then b else a
  end.

(** A property that may be absent from its object: [None] is
    [undefined]. *)
Definition property : Type := option JS.number.

(** Truthiness of a property in a condition. *)
Definition truthy (x : property) : bool :=
  match x with
  | Some n => JS.truthy n
  | None => false
  end.

(** [x || 0] *)
Definition orZero (x : property) : JS.number :=
  match x with
  | Some n => if JS.truthy n then n else JS.Num 0
  | None => JS.Num 0
  end.

(** A property used as an operand of [+]: [undefined] becomes NaN. *)
Definition toNumber (x : property) : JS.number :=
  match x with
  | Some n => n
  | None => JS.NaN
  end.

(** *** KPICard.jsx *)

(** [getChangeClass] *)
Definition getChangeClass (change : JS.number) : string :=
  if gt change (JS.Num 0) then "positive"
  else if lt change (JS.Num 0) then "negative"
  else "neutral".

(** [getChangeSymbol] *)
Definition getChangeSymbol (change : JS.number) : string :=
  if gt change (JS.Num 0) then "▲"
  else if lt change (JS.Num 0) then "▼"
  else "●".

(** *** Names shown for the keys of a record *)

(** [c.toUpperCase()] for one ASCII character. *)
Definition toUpperCase (a : ascii) : ascii :=
  let n := nat_of_ascii a in
  if ((97 <=? n) && (n <=? 122))%nat then ascii_of_nat (n - 32) else a.

(** [word.charAt(0).toUpperCase() + word.slice(1)] *)
Definition capitalize (word : string) : string :=
  match word with
  | EmptyString => EmptyString
  | String a r => String (toUpperCase a) r
  end.

(** [s.split(sep)] for a one-character separator. *)
Fixpoint split (sep : ascii) (s : string) : list string :=
  match s with
  | EmptyString => [EmptyString]
  | String a r =>
      if Ascii.eqb a sep then EmptyString :: split sep r
      else
        match split sep r with
        | w :: ws => String a w :: ws
        | [] => [String a EmptyString]
        end
  end.

(** [words.join(sep)] *)
Fixpoint join (sep : string) (words : list string) : string :=
  match words with
  | [] => EmptyString
  | [w] => w
  | w :: ws => (w ++ sep ++ join sep ws)%string
  end.

(** [key.split('_').map(word => word.charAt(0).toUpperCase() + word.slice(1)).join(' ')] *)
Definition titleOfKey (key : string) : string :=
  join " " (map capitalize (split "_" key)).

(** The characters below 128. *)
Definition is_ascii (s : string) : bool :=
  forallb (fun a => (nat_of_ascii a <? 128)%nat) (list_ascii_of_string s).

(** *** The reserve targets of the cash flow page *)

(** [Math.min((executive.current_reserves / target) * 100, 100)], the
    width of a progress bar. *)
Definition progressWidth (current target : JS.number) : JS.number :=
  min (JS.mul (JS.div current target) (JS.Num 100)) (JS.Num 100).

(** [executive.current_reserves >= target], the test behind "Met". *)
Definition targetMet (current target : JS.number) : bool := ge current target.

(** *** ProgramsPage.jsx *)

Record Program : Type := mkProgram {
  actual : property;
  budgeted : property;
  scholarships : property;
  percent_of_goal : property
}.

(** [Object.values(programs).reduce((sum, prog) => sum + (prog.scholarships || 0), 0)] *)
Definition totalScholarships (programs : list Program) : JS.number :=
  fold_left (fun sum prog => JS.add sum (orZero (scholarships prog)))
            programs (JS.Num 0).

(** [Object.values(programs).map(p => p.actual || 0)] *)
Definition programActuals (programs : list Program) : list JS.number :=
  map (fun p => orZero (actual p)) programs.

(** [programActuals.reduce((sum, val) => sum + val, 0)] *)
Definition totalProgramRevenue (programs : list Program) : JS.number :=
  fold_left (fun sum val => JS.add sum val) (programActuals programs) (JS.Num 0).

(** The "Average Goal Achievement" card: the programs with a truthy
    [percent_of_goal], their sum over their number, times 100. *)
Definition averageGoal (programs : list Program) : JS.number :=
  let withGoal := filter (fun p => truthy (percent_of_goal p)) programs in
  JS.mul
    (JS.div
       (fold_left (fun sum p => JS.add sum (toNumber (percent_of_goal p)))
                  withGoal (JS.Num 0))
       (JS.Num (inject_Z (Z.of_nat (List.length withGoal)))))
    (JS.Num 100).

End Pages.

(** * Properties *)

(** ** The monad *)

Lemma bind_returned {A B} (m : Py A) (k : A -> Py B) (w w' : World) (a : A) :
  m w = (Returned a, w') -> bind m k w = k a w'.
Proof. intros H. unfold bind. now rewrite H. Qed.

Lemma bind_raised {A B} (m : Py A) (k : A -> Py B) (w w' : World) (e : Exn) :
  m w = (Raised e, w') -> bind m k w = (Raised e, w').
Proof. intros H. unfold bind. now rewrite H. Qed.

Lemma emitted_same (w : World) : emitted w w = [].
Proof.
  unfold emitted. induction (stdout w) as [|l ls IH]; [reflexivity | exact IH].
Qed.

(** ** Strings *)

Lemma contains_remove_same (c : ascii) (s : string) :
  Str.contains c (Str.remove c s) = false.
Proof.
  induction s as [|a r IH]; simpl; [reflexivity|].
  destruct (Ascii.eqb a c) eqn:E; [exact IH|].
  simpl. now rewrite E, IH.
Qed.

Lemma contains_remove_other (c d : ascii) (s : string) :
  Str.contains c s = false -> Str.contains c (Str.remove d s) = false.
Proof.
  induction s as [|a r IH]; simpl; [reflexivity|].
  intros H. apply orb_false_iff in H as [Ha Hr].
  destruct (Ascii.eqb a d); simpl; [now apply IH|].
  now rewrite Ha, IH.
Qed.

Lemma contains_In (c : ascii) (s : string) :
  Str.contains c s = true <-> In c (list_ascii_of_string s).
Proof.
  induction s as [|a r IH]; simpl.
  - split; [discriminate | tauto].
  - rewrite orb_true_iff, IH, Ascii.eqb_eq. tauto.
Qed.

Lemma contains_reverse (c : ascii) (s : string) :
  Str.contains c (Str.reverse s) = Str.contains c s.
Proof.
  apply eq_true_iff_eq. rewrite !contains_In. unfold Str.reverse.
  rewrite list_ascii_of_string_of_list_ascii. symmetry. apply in_rev.
Qed.

Lemma contains_lstrip (c : ascii) (s : string) :
  Str.contains c s = false -> Str.contains c (Str.lstrip s) = false.
Proof.
  induction s as [|a r IH]; simpl; [reflexivity|].
  intros H. destruct (Str.isspace a); [|exact H].
  apply orb_false_iff in H as [_ Hr]. now apply IH.
Qed.

Lemma contains_strip (c : ascii) (s : string) :
  Str.contains c s = false -> Str.contains c (Str.strip s) = false.
Proof.
  intros H. unfold Str.strip, Str.rstrip.
  rewrite contains_reverse. apply contains_lstrip.
  rewrite contains_reverse. now apply contains_lstrip.
Qed.

Lemma string_of_list_ascii_app (l1 l2 : list ascii) :
  string_of_list_ascii (l1 ++ l2)
  = (string_of_list_ascii l1 ++ string_of_list_ascii l2)%string.
Proof. induction l1 as [|a l1 IH]; simpl; [reflexivity | now rewrite IH]. Qed.

Lemma list_ascii_of_string_app (s t : string) :
  list_ascii_of_string (s ++ t)%string
  = (list_ascii_of_string s ++ list_ascii_of_string t)%list.
Proof. induction s as [|a s IH]; simpl; [reflexivity | now rewrite IH]. Qed.

Lemma reverse_involutive (s : string) : Str.reverse (Str.reverse s) = s.
Proof.
  unfold Str.reverse.
  now rewrite list_ascii_of_string_of_list_ascii, rev_involutive,
    string_of_list_ascii_of_string.
Qed.

Lemma reverse_cons (a : ascii) (r : string) :
  Str.reverse (String a r) = (Str.reverse r ++ String a "")%string.
Proof. unfold Str.reverse. simpl. now rewrite string_of_list_ascii_app. Qed.

Lemma reverse_snoc (a : ascii) (s : string) :
  Str.reverse (s ++ String a "")%string = String a (Str.reverse s).
Proof.
  unfold Str.reverse. now rewrite list_ascii_of_string_app, rev_app_distr.
Qed.

(** What [lstrip] leaves does not begin with white space. *)
Lemma lstrip_head (s : string) :
  match Str.lstrip s with
  | EmptyString => True
  | String a _ => Str.isspace a = false
  end.
Proof.
  induction s as [|a r IH]; simpl; [exact I|].
  destruct (Str.isspace a) eqn:E; [exact IH | exact E].
Qed.

Lemma lstrip_idem (s : string) : Str.lstrip (Str.lstrip s) = Str.lstrip s.
Proof.
  pose proof (lstrip_head s) as H.
  destruct (Str.lstrip s) as [|a r]; simpl; [reflexivity | now rewrite H].
Qed.

Lemma lstrip_snoc (a : ascii) (s : string) :
  Str.isspace a = false ->
  Str.lstrip (s ++ String a "")%string = (Str.lstrip s ++ String a "")%string.
Proof.
  intros Ha. induction s as [|b r IH]; simpl; [now rewrite Ha|].
  destruct (Str.isspace b); [exact IH | reflexivity].
Qed.

Lemma rstrip_idem (s : string) : Str.rstrip (Str.rstrip s) = Str.rstrip s.
Proof.
  unfold Str.rstrip. now rewrite reverse_involutive, lstrip_idem.
Qed.

(** Stripping on the right keeps a first character that is no white
    space. *)
Lemma lstrip_rstrip_lstrip (s : string) :
  Str.lstrip (Str.rstrip (Str.lstrip s)) = Str.rstrip (Str.lstrip s).
Proof.
  pose proof (lstrip_head s) as H.
  destruct (Str.lstrip s) as [|a r]; [reflexivity|].
  unfold Str.rstrip.
  rewrite reverse_cons, lstrip_snoc, reverse_snoc by exact H.
  simpl. now rewrite H.
Qed.

(** The result of [strip] has no white space at either end. *)
Lemma strip_stripped (s : string) :
  Str.lstrip (Str.strip s) = Str.strip s
  /\ Str.rstrip (Str.strip s) = Str.strip s.
Proof.
  unfold Str.strip. split; [apply lstrip_rstrip_lstrip | apply rstrip_idem].
Qed.

Lemma remove_absent (c : ascii) (s : string) :
  Str.contains c s = false -> Str.remove c s = s.
Proof.
  induction s as [|a r IH]; simpl; [reflexivity|].
  intros H. apply orb_false_iff in H as [Ha Hr].
  rewrite Ha. now rewrite IH.
Qed.

Lemma is_empty_true (s : string) : Str.is_empty s = true <-> s = "".
Proof. destruct s; simpl; split; congruence. Qed.

Lemma is_empty_false (s : string) : Str.is_empty s = false <-> s <> "".
Proof. destruct s; simpl; split; congruence. Qed.

Lemma cleaned_of_empty : cleaned_of "" = "".
Proof. reflexivity. Qed.

(** A leading currency symbol is dropped before anything else happens. *)
Lemma cleaned_of_leading_dollar (body : string) :
  cleaned_of (String "$" body) = cleaned_of body.
Proof. reflexivity. Qed.

(** ** Comparisons on rationals *)

Lemma Qle_bool_false (a b : Q) : Qle_bool a b = false <-> b < a.
Proof.
  split; intros H.
  - apply Qnot_le_lt. intros L. apply Qle_bool_iff in L. congruence.
  - destruct (Qle_bool a b) eqn:E; [|reflexivity].
    apply Qle_bool_iff in E. exfalso. exact (Qlt_not_le _ _ H E).
Qed.

Lemma Qeq_bool_false (a b : Q) : Qeq_bool a b = false <-> ~ a == b.
Proof.
  split; intros H.
  - intros E. apply Qeq_bool_iff in E. congruence.
  - destruct (Qeq_bool a b) eqn:E; [|reflexivity].
    apply Qeq_bool_iff in E. contradiction.
Qed.

Lemma close_enough_refl (a : Q) : close_enough a a = true.
Proof.
  unfold close_enough. apply Qle_bool_iff.
  assert (Z : a - a == 0) by ring.
  rewrite Z. simpl Qabs.
  apply Qmult_le_0_compat; [discriminate|].
  rewrite Q.max_id. apply Qabs_nonneg.
Qed.

Lemma close_enough_compat (a a' b b' : Q) :
  a == a' -> b == b' -> close_enough a b = close_enough a' b'.
Proof.
  intros Ha Hb. unfold close_enough. apply eq_true_iff_eq.
  rewrite !Qle_bool_iff. now rewrite Ha, Hb.
Qed.

(** ** Guarded and unguarded division *)

(** [safe_divide] never raises: 0 for a zero denominator, the quotient
    otherwise. *)
Lemma safe_divide_guard (n d : Q) (w : World) :
  safe_divide n d w =
  (Returned (if Qeq_bool d 0 then 0 else n / d), w).
Proof.
  unfold safe_divide, py_div. now destruct (Qeq_bool d 0).
Qed.

(** The unguarded quotient raises where [safe_divide] returns 0. *)
Lemma py_div_zero (n : Q) (w : World) :
  py_div n 0 w = (Raised ZeroDivisionError, w).
Proof. reflexivity. Qed.

(** Away from a zero budget the pages compute the variance formula. *)
Lemma calculateVariance_formula (a b : Q) :
  ~ b == 0 ->
  JS.calculateVariance (JS.Num a) (JS.Num b) = JS.Num ((a - b) / b * 100).
Proof.
  intros Hb. unfold JS.calculateVariance. simpl.
  apply Qeq_bool_false in Hb. now rewrite Hb.
Qed.

Example calculateVariance_110_100 :
  JS.calculateVariance (JS.Num 110) (JS.Num 100) = JS.Num ((110 - 100) / 100 * 100)
  /\ (110 - 100) / 100 * 100 == 10.
Proof. split; reflexivity. Qed.

(** The programs page guards the same formula. *)
Lemma programVariance_zero_budget (a : JS.number) :
  JS.programVariance a (JS.Num 0) = JS.Num 0.
Proof. reflexivity. Qed.

Lemma programVariance_formula (a b : Q) :
  ~ b == 0 ->
  JS.programVariance (JS.Num a) (JS.Num b) = JS.Num ((a - b) / b * 100).
Proof.
  intros Hb. unfold JS.programVariance. simpl.
  apply Qeq_bool_false in Hb. now rewrite Hb.
Qed.

(** C3 (the code departs from the claim): with a budget of 0 the variance
    is claimed to be 0.  [calculateVariance] of the revenue and expense
    pages divides without a guard: for a finite [actual] and a budget of 0
    it yields an infinity, or NaN when [actual] is 0 as well, and never the
    number 0. *)
Theorem calculateVariance_zero_budget :
  JS.calculateVariance (JS.Num 5) (JS.Num 0) = JS.Infinity false
  /\ JS.calculateVariance (JS.Num 0) (JS.Num 0) = JS.NaN
  /\ forall a : Q, JS.calculateVariance (JS.Num a) (JS.Num 0) <> JS.Num 0.
Proof.
  split; [reflexivity|]. split; [reflexivity|].
  intros a. unfold JS.calculateVariance. simpl.
  destruct (Qeq_bool (a - 0) 0); simpl; discriminate.
Qed.

(** ** Reserve health *)

(** C4: [reserve_health] is good from 3 months up, warning from 2 up to
    but excluding 3, critical below 2; the values 3 and 2 themselves fall
    in the higher tier, and 3, 2.999, 1.999 and 0 classify as good,
    warning, critical and critical. *)
Theorem reserve_health_tiers :
  (forall months : Q,
      (reserve_health months = good <-> 3 <= months)
      /\ (reserve_health months = warning <-> 2 <= months /\ months < 3)
      /\ (reserve_health months = critical <-> months < 2))
  /\ reserve_health 3 = good
  /\ reserve_health 2 = warning
  /\ reserve_health (2999 # 1000) = warning
  /\ reserve_health (1999 # 1000) = critical
  /\ reserve_health 0 = critical.
Proof.
  split; [|repeat split].
  intros months. unfold reserve_health.
  destruct (Qle_bool 3 months) eqn:E3;
    [apply Qle_bool_iff in E3
    |apply Qle_bool_false in E3;
     destruct (Qle_bool 2 months) eqn:E2;
     [apply Qle_bool_iff in E2 | apply Qle_bool_false in E2]];
    (split; [|split]); (split; intros H);
    try discriminate H; try reflexivity; try assumption;
    try (split; assumption);
    try match type of H with _ /\ _ => destruct H end; exfalso; lra.
Qed.

(** A reserve ratio guarded to 0 is classified critical. *)
Lemma guarded_months_critical (current : Q) (w : World) :
  safe_divide current 0 w = (Returned 0, w) /\ reserve_health 0 = critical.
Proof. split; reflexivity. Qed.

(** ** The conversion of an int by [float] *)

Section IntToFloat.

Local Open Scope Z_scope.

(** Below 2^1024 - 2^970 the rounded magnitude stays below 2^1024. *)
Lemma round_to_double_in_range (n : Z) :
  0 <= n < 2 ^ 1024 - 2 ^ 970 -> round_to_double n < 2 ^ 1024.
Proof.
  intros [N0 NM].
  assert (M : 2 ^ 1024 - 2 ^ 970 < 2 ^ 1024) by reflexivity.
  unfold round_to_double.
  destruct (Z.log2 n + 1 <=? 53) eqn:B; [lia|].
  apply Z.leb_gt in B.
  assert (Npos : 0 < n).
  { destruct (Z.eq_dec n 0) as [-> | ]; [|lia]. vm_compute in B. discriminate B. }
  destruct (Z.log2_spec n Npos) as [Lo Hi].
  set (b := Z.log2 n + 1) in *.
  replace (Z.succ (Z.log2 n)) with b in Hi by (unfold b; lia).
  assert (Lb : Z.log2 n = b - 1) by (unfold b; lia).
  rewrite Lb in Lo.
  set (shift := b - 53).
  assert (S1 : 1 <= shift) by (unfold shift; lia).
  rewrite Z.shiftr_div_pow2 by lia.
  assert (P : 0 < 2 ^ shift) by (apply Z.pow_pos_nonneg; lia).
  pose proof (Z.div_mod n (2 ^ shift) ltac:(lia)) as DM.
  pose proof (Z.mod_pos_bound n (2 ^ shift) P) as RB.
  set (q := n / 2 ^ shift) in *.
  set (r := n mod 2 ^ shift) in *.
  assert (Pb : 2 ^ b = 2 ^ 53 * 2 ^ shift).
  { unfold shift. rewrite <- Z.pow_add_r by lia. f_equal. lia. }
  assert (Q53 : q < 2 ^ 53).
  { assert (C : 2 ^ 53 = 9007199254740992) by reflexivity.
    rewrite C in *. nia. }
  assert (b1024 : b <= 1024).
  { destruct (Z_le_gt_dec b 1024) as [L | G]; [exact L|]. exfalso.
    assert (2 ^ 1024 <= 2 ^ (b - 1)) by (apply Z.pow_le_mono_r; lia). lia. }
  set (q' := if (2 ^ (shift - 1) <? r) || ((r =? 2 ^ (shift - 1)) && Z.odd q)
             then q + 1 else q).
  rewrite Z.shiftl_mul_pow2 by lia.
  destruct (Z.eq_dec b 1024) as [E | NE].
  - assert (Sh : shift = 971) by (unfold shift; lia).
    assert (Q' : q' * 2 ^ shift <= (2 ^ 53 - 1) * 2 ^ shift).
    { apply Z.mul_le_mono_nonneg_r; [lia|].
      unfold q'.
      destruct ((2 ^ (shift - 1) <? r) || ((r =? 2 ^ (shift - 1)) && Z.odd q)) eqn:C;
        [|lia].
      assert (Hr : 2 ^ (shift - 1) <= r).
      { apply orb_true_iff in C as [C | C].
        - apply Z.ltb_lt in C. lia.
        - apply andb_true_iff in C as [C _]. apply Z.eqb_eq in C. lia. }
      assert (q <> 2 ^ 53 - 1); [|lia].
      intros Eq. rewrite Sh in *.
      assert (F1 : 2 ^ 1024 = 2 ^ 53 * 2 ^ 971) by reflexivity.
      assert (F2 : 2 ^ 971 = 2 * 2 ^ 970) by reflexivity.
      replace (971 - 1) with 970 in Hr by lia.
      rewrite Eq in DM. nia. }
    rewrite Sh in *.
    assert (F1 : 2 ^ 1024 = 2 ^ 53 * 2 ^ 971) by reflexivity.
    assert (0 < 2 ^ 971) by lia. nia.
  - assert (Q' : q' <= 2 ^ 53).
    { unfold q'. destruct ((2 ^ (shift - 1) <? r) || _); lia. }
    assert (q' * 2 ^ shift <= 2 ^ 53 * 2 ^ shift)
      by (apply Z.mul_le_mono_nonneg_r; lia).
    assert (2 ^ b <= 2 ^ 1023) by (apply Z.pow_le_mono_r; lia).
    assert (2 ^ 1023 < 2 ^ 1024) by reflexivity.
    lia.
Qed.

(** From 2^1024 - 2^970 on it reaches 2^1024. *)
Lemma round_to_double_overflow (n : Z) :
  2 ^ 1024 - 2 ^ 970 <= n -> 2 ^ 1024 <= round_to_double n.
Proof.
  intros NM.
  assert (M0 : 0 < 2 ^ 1024 - 2 ^ 970) by reflexivity.
  assert (M1 : 2 ^ 1023 < 2 ^ 1024 - 2 ^ 970) by reflexivity.
  assert (Npos : 0 < n) by lia.
  destruct (Z.log2_spec n Npos) as [Lo Hi].
  unfold round_to_double.
  set (b := Z.log2 n + 1) in *.
  replace (Z.succ (Z.log2 n)) with b in Hi by (unfold b; lia).
  assert (Lb : Z.log2 n = b - 1) by (unfold b; lia).
  rewrite Lb in Lo.
  assert (b1024 : 1024 <= b).
  { destruct (Z_le_gt_dec 1024 b) as [L | G]; [exact L|]. exfalso.
    assert (2 ^ b <= 2 ^ 1023) by (apply Z.pow_le_mono_r; lia). lia. }
  assert (B : (b <=? 53) = false) by (apply Z.leb_gt; lia).
  rewrite B.
  set (shift := b - 53).
  assert (S1 : 1 <= shift) by (unfold shift; lia).
  rewrite Z.shiftr_div_pow2, Z.shiftl_mul_pow2 by lia.
  assert (P : 0 < 2 ^ shift) by (apply Z.pow_pos_nonneg; lia).
  pose proof (Z.div_mod n (2 ^ shift) ltac:(lia)) as DM.
  pose proof (Z.mod_pos_bound n (2 ^ shift) P) as RB.
  set (q := n / 2 ^ shift) in *.
  set (r := n mod 2 ^ shift) in *.
  assert (C52 : 2 ^ 52 = 4503599627370496) by reflexivity.
  assert (C53 : 2 ^ 53 = 9007199254740992) by reflexivity.
  assert (Pb1 : 2 ^ (b - 1) = 2 ^ 52 * 2 ^ shift).
  { unfold shift. rewrite <- Z.pow_add_r by lia. f_equal. lia. }
  assert (Pb : 2 ^ b = 2 ^ 53 * 2 ^ shift).
  { unfold shift. rewrite <- Z.pow_add_r by lia. f_equal. lia. }
  assert (Q52 : 2 ^ 52 <= q) by (rewrite C52 in *; nia).
  assert (Q53 : q < 2 ^ 53) by (rewrite C53 in *; nia).
  destruct (Z.eq_dec b 1024) as [E | NE].
  - assert (Sh : shift = 971) by (unfold shift; lia).
    rewrite Sh in *. replace (971 - 1) with 970 by lia.
    assert (F1 : 2 ^ 1024 = 2 ^ 53 * 2 ^ 971) by reflexivity.
    assert (F2 : 2 ^ 971 = 2 * 2 ^ 970) by reflexivity.
    assert (H970 : 0 < 2 ^ 970) by reflexivity.
    assert (Eq : q = 2 ^ 53 - 1) by (rewrite C53 in *; nia).
    assert (Hr : 2 ^ 970 <= r) by (rewrite Eq, C53 in *; nia).
    assert (Odd : Z.odd q = true) by (rewrite Eq; reflexivity).
    assert (C : (2 ^ 970 <? r) || ((r =? 2 ^ 970) && Z.odd q) = true).
    { rewrite Odd, andb_true_r.
      destruct (Z.eq_dec r (2 ^ 970)) as [-> | N].
      - rewrite Z.eqb_refl. apply orb_true_r.
      - assert (L : (2 ^ 970 <? r) = true) by (apply Z.ltb_lt; lia).
        now rewrite L. }
    rewrite C. rewrite Eq, C53 in *. nia.
  - assert (2 ^ 1024 <= 2 ^ (b - 1)) by (apply Z.pow_le_mono_r; lia).
    assert (Q' : q <= (if (2 ^ (shift - 1) <? r)
                            || ((r =? 2 ^ (shift - 1)) && Z.odd q)
                       then q + 1 else q))
      by (destruct ((2 ^ (shift - 1) <? r) || _); lia).
    assert (q * 2 ^ shift
            <= (if (2 ^ (shift - 1) <? r) || ((r =? 2 ^ (shift - 1)) && Z.odd q)
                then q + 1 else q) * 2 ^ shift)
      by (apply Z.mul_le_mono_nonneg_r; lia).
    rewrite C52 in *. nia.
Qed.

(** [float] raises [OverflowError] exactly on the ints of magnitude
    2^1024 - 2^970 or more. *)
Lemma float_of_int_overflow_iff (z : Z) :
  float_of_int z = None <-> 2 ^ 1024 - 2 ^ 970 <= Z.abs z.
Proof.
  unfold float_of_int. split.
  - destruct (2 ^ 1024 <=? round_to_double (Z.abs z)) eqn:C; [|discriminate].
    intros _. apply Z.leb_le in C.
    destruct (Z_le_gt_dec (2 ^ 1024 - 2 ^ 970) (Z.abs z)) as [L | G]; [exact L|].
    exfalso.
    assert (round_to_double (Z.abs z) < 2 ^ 1024)
      by (apply round_to_double_in_range; lia).
    lia.
  - intros H. apply round_to_double_overflow in H.
    apply Z.leb_le in H. now rewrite H.
Qed.

End IntToFloat.

(** ** The numeric normalizer *)

Section Normalizer.

Variable float_of_str : string -> option Q.

(** Neither helper touches the world. *)
Lemma clean_currency_pure (v : RawCell) (w : World) :
  snd (clean_currency float_of_str v w) = w.
Proof.
  destruct v as [| z | q | s | c]; simpl; try reflexivity.
  - unfold py_float_of_int. now destruct (float_of_int z).
  - destruct (Str.startswith "#" s || Str.is_empty s); [reflexivity|].
    destruct (Str.is_empty (cleaned_of s)); [reflexivity|].
    unfold py_float. now destruct (float_of_str (cleaned_of s)).
Qed.

Lemma cleaned_of_no_punctuation (s : string) :
  Str.contains "$" (cleaned_of s) = false
  /\ Str.contains "," (cleaned_of s) = false.
Proof.
  unfold cleaned_of. split; apply contains_strip.
  - apply contains_remove_other, contains_remove_same.
  - apply contains_remove_same.
Qed.

Lemma clean_currency_string (s : string) (w : World) :
  Str.startswith "#" s = false ->
  clean_currency float_of_str (PyStr s) w =
  (if Str.is_empty (cleaned_of s) then ret 0
   else py_float float_of_str (cleaned_of s)) w.
Proof.
  intros H. simpl. rewrite H. simpl.
  destruct (Str.is_empty s) eqn:E; [|reflexivity].
  apply is_empty_true in E. subst s. reflexivity.
Qed.

(** White space of the ASCII range, by character code: tab, line feed,
    vertical tab, form feed, carriage return, the separators 28 to 31 and
    the space. *)
Local Notation "'white_code' n" :=
  ((9 <= n /\ n <= 13) \/ (28 <= n /\ n <= 32))%nat (at level 10, n at level 9).





Lemma float_of_int_exact (z : Z) :
  (Z.abs z <= 2 ^ 53)%Z -> float_of_int z = Some (inject_Z z).
Proof.
  intros H. unfold float_of_int.
  assert (R : round_to_double (Z.abs z) = Z.abs z).
  { destruct (Z.eq_dec (Z.abs z) (2 ^ 53)) as [E | N].
    - rewrite E. vm_compute. reflexivity.
    - unfold round_to_double.
      assert (B : (Z.log2 (Z.abs z) + 1 <=? 53)%Z = true).
      { apply Z.leb_le.
        destruct (Z.eq_dec (Z.abs z) 0) as [Z0 | NZ].
        - rewrite Z0. vm_compute. discriminate.
        - assert (P : (0 < Z.abs z)%Z) by lia.
          assert (L : (Z.log2 (Z.abs z) < 53)%Z)
            by (apply Z.log2_lt_pow2; [exact P | lia]).
          lia. }
      now rewrite B. }
  rewrite R.
  assert (Big : (2 ^ 53 < 2 ^ 1024)%Z) by reflexivity.
  assert (G : (2 ^ 1024 <=? Z.abs z)%Z = false) by (apply Z.leb_gt; lia).
  rewrite G. f_equal. f_equal. destruct z; reflexivity.
Qed.


(** C6, amended: for a string that begins with the error-token prefix
    [#], [clean_currency] and [safe_float] return 0 without raising and
    leave the world as it was: nothing is printed or recorded. *)
Theorem error_token_yields_zero_silently (s : string) (w : World) :
  Str.startswith "#" s = true ->
  clean_currency float_of_str (PyStr s) w = (Returned 0, w)
  /\ safe_float float_of_str (PyStr s) w = (Returned 0, w)
  /\ emitted w (snd (clean_currency float_of_str (PyStr s) w)) = [].
Proof.
  intros H. simpl. rewrite H. simpl. repeat split. apply emitted_same.
Qed.

(** C10, amended: [safe_float] returns a number, without raising and
    without touching the world, on every value other than an int of
    magnitude 2^1024 - 2^970 or more (the ints that [float] cannot
    convert); an int of magnitude at most 2^53 comes back unchanged; a
    string that [float] rejects gives 0. *)
Theorem safe_float_returns (v : RawCell) (w : World) :
  (forall z : Z, v = PyInt z -> (Z.abs z < 2 ^ 1024 - 2 ^ 970)%Z) ->
  (exists q : Q, safe_float float_of_str v w = (Returned q, w))
  /\ (forall z : Z,
         (Z.abs z <= 2 ^ 53)%Z ->
         safe_float float_of_str (PyInt z) w = (Returned (inject_Z z), w))
  /\ (forall s : string,
         float_of_str s = None ->
         safe_float float_of_str (PyStr s) w = (Returned 0, w)).
Proof.
  intros Hint. split; [|split].
  - destruct v as [| z | q | s | c]; simpl; try (eexists; reflexivity).
    + unfold py_float_of_int.
      destruct (float_of_int z) eqn:F; [eexists; reflexivity|].
      exfalso. apply float_of_int_overflow_iff in F.
      specialize (Hint z eq_refl). lia.
    + destruct (Str.startswith "#" s); [eexists; reflexivity|].
      unfold try_except, py_float.
      destruct (float_of_str s); eexists; reflexivity.
    + destruct c; eexists; reflexivity.
  - intros z H. simpl. unfold py_float_of_int.
    now rewrite (float_of_int_exact z H).
  - intros s E. simpl.
    destruct (Str.startswith "#" s); [reflexivity|].
    unfold try_except, py_float. now rewrite E.
Qed.

End Normalizer.



Lemma error_token_yields_zero_silently_witness :
  clean_currency decimal_of_string (PyStr "#REF!") empty_world
  = (Returned 0, empty_world).
Proof.
  apply (error_token_yields_zero_silently decimal_of_string "#REF!" empty_world).
  reflexivity.
Defined.

(** C6, as stated, fails: normalizing ["#REF!"] returns 0 but records no
    diagnostic at all, let alone exactly one. *)
Lemma error_token_records_nothing :
  ~ (fst (clean_currency decimal_of_string (PyStr "#REF!") empty_world) = Returned 0
     /\ exists d : string,
          emitted empty_world
                  (snd (clean_currency decimal_of_string (PyStr "#REF!") empty_world))
          = [d]).
Proof. intros [_ [d H]]. discriminate H. Qed.

Lemma safe_float_returns_witness :
  (exists q : Q,
      safe_float decimal_of_string (PyInt 50000%Z) empty_world
      = (Returned q, empty_world))
  /\ safe_float decimal_of_string (PyStr "n/a") empty_world
     = (Returned 0, empty_world).
Proof.
  split.
  - apply (proj1 (safe_float_returns decimal_of_string (PyInt 50000%Z) empty_world
                    ltac:(intros z E; injection E as <-; reflexivity))).
  - apply (proj2 (proj2 (safe_float_returns decimal_of_string Missing empty_world
                           ltac:(intros z E; discriminate E))) "n/a").
    reflexivity.
Defined.

(** C10, as stated, fails: on the int 10^400 [safe_float] raises
    [OverflowError], because the conversion of an int comes before the
    [try]. *)
Lemma safe_float_overflows :
  safe_float decimal_of_string (PyInt (10 ^ 400)%Z) empty_world
  = (Raised OverflowError, empty_world)
  /\ ~ (exists q : Q,
          safe_float decimal_of_string (PyInt (10 ^ 400)%Z) empty_world
          = (Returned q, empty_world)).
Proof.
  assert (R : safe_float decimal_of_string (PyInt (10 ^ 400)%Z) empty_world
              = (Raised OverflowError, empty_world))
    by (vm_compute; reflexivity).
  split; [exact R|]. intros [q H]. rewrite R in H. discriminate H.
Qed.

(** ** The flow graph *)

(** [calculate_sankey_data] returns without touching the world. *)
Lemma calculate_sankey_data_run (a : AnnualData) (w : World) :
  exists d : SankeyData,
    calculate_sankey_data a w = (Returned d, w)
    /\ labels d = sankey_labels
    /\ sources d = [0; 1; 2; 3; 4; 5; 6; 6]%nat
    /\ targets d = [6; 6; 6; 6; 6; 6; 7; 8]%nat
    /\ values d = (revenue_actuals (revenue a)
                   ++ [payroll_total_of (expenses a);
                       operations_total_of (expenses a)])%list.
Proof. eexists. repeat split. Qed.

Lemma payroll_plus_operations (e : Expenses) :
  payroll_total_of e + operations_total_of e == actual (expenses_total e).
Proof. unfold operations_total_of. ring. Qed.

(** C1, amended: at the Organization node the outflow (payroll plus
    operations) equals the total expense actual and the inflow is the sum
    of the six revenue actuals; the node conserves value, within the
    tolerance, exactly when the six revenue actuals sum to the total
    expense actual within that tolerance. *)
Theorem hub_flows (a : AnnualData) (w : World) :
  exists d : SankeyData,
    calculate_sankey_data a w = (Returned d, w)
    /\ inflow d hub == Qsum (revenue_actuals (revenue a))
    /\ outflow d hub == actual (expenses_total (expenses a))
    /\ hub_conserved d =
       close_enough (Qsum (revenue_actuals (revenue a)))
                    (actual (expenses_total (expenses a))).
Proof.
  eexists. split; [reflexivity|].
  assert (I : inflow (mkSankey sankey_labels [0; 1; 2; 3; 4; 5; 6; 6]%nat
                        [6; 6; 6; 6; 6; 6; 7; 8]%nat
                        (revenue_actuals (revenue a)
                         ++ [payroll_total_of (expenses a);
                             actual (expenses_total (expenses a))
                             - payroll_total_of (expenses a)])%list) hub
              == Qsum (revenue_actuals (revenue a))) by reflexivity.
  assert (O : outflow (mkSankey sankey_labels [0; 1; 2; 3; 4; 5; 6; 6]%nat
                         [6; 6; 6; 6; 6; 6; 7; 8]%nat
                         (revenue_actuals (revenue a)
                          ++ [payroll_total_of (expenses a);
                              actual (expenses_total (expenses a))
                              - payroll_total_of (expenses a)])%list) hub
              == actual (expenses_total (expenses a))).
  { unfold outflow, edges. simpl. ring. }
  split; [exact I|]. split; [exact O|].
  unfold hub_conserved. now apply close_enough_compat.
Qed.

(** C1, as stated, fails: with 50000 of revenue and 40000 of expenses the
    Organization node receives 50000 and passes on 40000. *)
Lemma hub_not_conserved :
  ~ (forall d : SankeyData,
        fst (calculate_sankey_data sample_annual empty_world) = Returned d ->
        hub_conserved d = true).
Proof.
  intros H. specialize (H _ eq_refl). vm_compute in H. discriminate H.
Qed.

(** C9, amended: the payroll aggregate is the sum of the salaries and
    wages, payroll taxes and benefits actuals; the operations aggregate is
    the total expense actual minus the payroll aggregate and enters the
    values unchanged whatever its sign; the builder prints and records
    nothing.  The expense page computes the same two numbers. *)
Theorem sankey_payroll_operations (a : AnnualData) (w : World) :
  exists d : SankeyData,
    calculate_sankey_data a w = (Returned d, w)
    /\ nth_error (edges d) 6 =
       Some (6%nat, 7%nat,
             actual (salaries_wages (expenses a))
             + actual (payroll_taxes (expenses a))
             + actual (benefits (expenses a)))
    /\ nth_error (edges d) 7 =
       Some (6%nat, 8%nat,
             actual (expenses_total (expenses a))
             - (actual (salaries_wages (expenses a))
                + actual (payroll_taxes (expenses a))
                + actual (benefits (expenses a))))
    /\ emitted w (snd (calculate_sankey_data a w)) = []
    /\ (forall s t b total : Q,
           JS.payrollTotal (JS.Num s) (JS.Num t) (JS.Num b) = JS.Num (s + t + b)
           /\ JS.operationsTotal (JS.Num total) (JS.Num (s + t + b))
              = JS.Num (total - (s + t + b))).
Proof.
  eexists. split; [reflexivity|].
  repeat split. apply emitted_same.
Qed.

(** C9, as stated, fails: with payroll of 20 against total expenses of 10
    the operations aggregate is -10 and no warning is surfaced. *)
Lemma negative_operations_no_warning :
  ~ (operations_total_of (expenses overspent_annual) < 0 ->
     emitted empty_world
             (snd (calculate_sankey_data overspent_annual empty_world)) <> []).
Proof.
  intros H. apply H; reflexivity.
Qed.

(** ** The run *)

Section Run.

Variable float_of_str : string -> option Q.
Variable load_fy26_annual_data : list (string * DataFrame) -> Outcome AnnualData.
Variable load_program_data : list (string * DataFrame) -> Outcome Json.
Variable load_monthly_cashflow : list (string * DataFrame) -> Outcome Json.

Local Notation "'main_run'" :=
  (main float_of_str load_fy26_annual_data load_program_data
        load_monthly_cashflow).

Lemma clean_currency_run (v : RawCell) (w : World) :
  exists o : Outcome Q, clean_currency float_of_str v w = (o, w).
Proof.
  exists (fst (clean_currency float_of_str v w)).
  rewrite <- (clean_currency_pure float_of_str v w) at 3.
  apply surjective_pairing.
Qed.

Lemma unparseable_raises (s : string) (w : World) :
  Str.startswith "#" s = false ->
  cleaned_of s <> "" ->
  float_of_str (cleaned_of s) = None ->
  clean_currency float_of_str (PyStr s) w
  = (Raised (ValueError (cleaned_of s)), w).
Proof.
  intros H E P. rewrite clean_currency_string by assumption.
  apply is_empty_false in E. rewrite E. unfold py_float. now rewrite P.
Qed.

(** The loop of [load_summary_data] either raises or returns, and leaves
    the world as it was. *)
Lemma summary_columns_run (df : DataFrame) (cols : list nat)
    (acc : IncomeTrends) (w : World) :
  exists o : Outcome IncomeTrends,
    summary_columns float_of_str df cols acc w = (o, w).
Proof.
  revert acc. induction cols as [|c rest IH]; intros acc; simpl.
  - eexists. reflexivity.
  - unfold bind, iloc.
    destruct (cell df 17 c) as [c17|]; [|eexists; reflexivity]. simpl.
    destruct (clean_currency_run c17 w) as [[v17|e] ->];
      [|eexists; reflexivity].
    destruct (cell df 18 c) as [c18|]; [|eexists; reflexivity]. simpl.
    destruct (clean_currency_run c18 w) as [[v18|e] ->];
      [|eexists; reflexivity].
    apply IH.
Qed.

(** A cell of row 17 or 18 that cannot be parsed makes the loop raise. *)
Lemma summary_columns_raises (df : DataFrame) (s : string) (row col : nat)
    (cols : list nat) (acc : IncomeTrends) (w : World) :
  Str.startswith "#" s = false ->
  cleaned_of s <> "" ->
  float_of_str (cleaned_of s) = None ->
  (row = 17 \/ row = 18)%nat ->
  In col cols ->
  cell df row col = Some (PyStr s) ->
  exists e : Exn, summary_columns float_of_str df cols acc w = (Raised e, w).
Proof.
  intros H E P Hrow Hin Hcell. revert acc.
  induction cols as [|c rest IH]; intros acc; [destruct Hin|]. simpl.
  unfold bind, iloc.
  destruct (cell df 17 c) as [c17|] eqn:E17; [|eexists; reflexivity]. simpl.
  destruct (clean_currency_run c17 w) as [[v17|e] R17]; rewrite R17;
    [|eexists; reflexivity].
  destruct (cell df 18 c) as [c18|] eqn:E18; [|eexists; reflexivity]. simpl.
  destruct (clean_currency_run c18 w) as [[v18|e] R18]; rewrite R18;
    [|eexists; reflexivity].
  destruct Hin as [<- | Hin]; [|now apply IH].
  exfalso. destruct Hrow as [-> | ->].
  - rewrite Hcell in E17. injection E17 as <-.
    rewrite unparseable_raises in R17 by assumption. discriminate R17.
  - rewrite Hcell in E18. injection E18 as <-.
    rewrite unparseable_raises in R18 by assumption. discriminate R18.
Qed.

Lemma load_summary_data_run (w : World) :
  exists o : Outcome IncomeTrends,
    load_summary_data float_of_str w = (o, w)
    /\ (lookup_file summary_csv (files w) = None ->
        o = Raised (FileNotFoundError summary_csv)).
Proof.
  unfold load_summary_data, bind, read_csv.
  destruct (lookup_file summary_csv (files w)) as [df|].
  - destruct (summary_columns_run df (seq 2 11)
                (mkIncomeTrends fiscal_years [] []) w) as [o ->].
    exists o. split; [reflexivity | discriminate].
  - eexists. split; reflexivity.
Qed.

(** What [main] does, loader by loader. *)
Lemma main_unfold (w : World) :
  main_run w =
  match load_summary_data float_of_str (started w) with
  | (Raised e, _) => (Raised e, started w)
  | (Returned summary_data, _) =>
      match load_fy26_annual_data (files w) with
      | Raised e => (Raised e, started w)
      | Returned annual_data =>
          match load_program_data (files w) with
          | Raised e => (Raised e, started w)
          | Returned program_data =>
              match load_monthly_cashflow (files w) with
              | Raised e => (Raised e, started w)
              | Returned cashflow_data =>
                  (Returned tt,
                   mkWorld (files w)
                     (stdout (started w) ++ ["✅ Data processing complete!"])%list
                     true
                     (written w
                      ++ outputs_of summary_data annual_data program_data
                           cashflow_data
                           (mkSankey sankey_labels
                              [0; 1; 2; 3; 4; 5; 6; 6]%nat
                              [6; 6; 6; 6; 6; 6; 7; 8]%nat
                              (revenue_actuals (revenue annual_data)
                               ++ [payroll_total_of (expenses annual_data);
                                   operations_total_of (expenses annual_data)])%list))%list)
              end
          end
      end
  end.
Proof.
  unfold main.
  unfold bind at 1. unfold print at 1. cbv iota beta.
  unfold bind at 1. unfold mkdir_output at 1. cbn [files stdout output_dir written].
  fold (started w).
  unfold bind at 1.
  destruct (load_summary_data_run (started w)) as [o [-> _]].
  destruct o as [summary_data|e]; [|reflexivity].
  unfold bind at 1, reading at 1. cbn [files started].
  destruct (load_fy26_annual_data (files w)) as [annual_data|e]; [|reflexivity].
  unfold bind at 1, reading at 1. cbn [files started].
  destruct (load_program_data (files w)) as [program_data|e]; [|reflexivity].
  unfold bind at 1, reading at 1. cbn [files started].
  destruct (load_monthly_cashflow (files w)) as [cashflow_data|e]; [|reflexivity].
  unfold bind, calculate_sankey_data, ret, json_dump, print, outputs_of, started.
  cbn [files stdout output_dir written].
  repeat rewrite <- app_assoc. reflexivity.
Qed.

(** C7, amended: an ASCII string that is no error token, is not empty
    once the currency symbol and the separators are removed and it is
    stripped, and that [float] rejects makes [clean_currency] raise the
    [ValueError] of [float], which carries the cleaned string and no
    field name.  Nothing catches it: when the string sits in a cell that
    [load_summary_data] reads (rows 17 and 18, columns 2 to 12), [main]
    raises and writes no output record.  [safe_float] does not fail on
    such a string: it returns 0 where [float] rejects its argument. *)
Theorem unparseable_string_aborts (s : string) (w : World) (df : DataFrame)
    (row col : nat) :
  Str.is_ascii s = true ->
  Str.startswith "#" s = false ->
  cleaned_of s <> "" ->
  float_of_str (cleaned_of s) = None ->
  lookup_file summary_csv (files w) = Some df ->
  (row = 17 \/ row = 18)%nat ->
  (2 <= col <= 12)%nat ->
  cell df row col = Some (PyStr s) ->
  clean_currency float_of_str (PyStr s) w
  = (Raised (ValueError (cleaned_of s)), w)
  /\ (exists e : Exn, fst (main_run w) = Raised e)
  /\ written (snd (main_run w)) = written w
  /\ safe_float float_of_str (PyStr s) w
     = (Returned match float_of_str s with Some q => q | None => 0 end, w).
Proof.
  intros _ H E P Hfile Hrow Hcol Hcell.
  split; [now apply unparseable_raises|].
  assert (R : exists e : Exn,
             load_summary_data float_of_str (started w) = (Raised e, started w)).
  { unfold load_summary_data, bind, read_csv. cbn [files started].
    rewrite Hfile.
    destruct (summary_columns_raises df s row col (seq 2 11)
                (mkIncomeTrends fiscal_years [] []) (started w))
      as [e ->]; try assumption.
    - apply in_seq. lia.
    - now exists e. }
  destruct R as [e R]. rewrite main_unfold, R. cbn [fst snd started written].
  split; [now exists e|]. split; [reflexivity|].
  simpl. rewrite H. unfold try_except, py_float.
  now destruct (float_of_str s).
Qed.

(** C8: a run writes none of the seven records or all of them: when the
    summary file is missing, or any loader raises, [main] raises and has
    written nothing; otherwise it returns and has written the seven
    records. *)
Theorem main_all_or_nothing (w : World) :
  (exists new : list (string * Json),
      written (snd (main_run w)) = (written w ++ new)%list
      /\ ((exists e : Exn, fst (main_run w) = Raised e) /\ new = []
          \/ fst (main_run w) = Returned tt /\ map fst new = output_names))
  /\ (lookup_file summary_csv (files w) = None ->
      fst (main_run w) = Raised (FileNotFoundError summary_csv)
      /\ written (snd (main_run w)) = written w)
  /\ (forall e : Exn,
         load_fy26_annual_data (files w) = Raised e
         \/ load_program_data (files w) = Raised e
         \/ load_monthly_cashflow (files w) = Raised e ->
         (exists e' : Exn, fst (main_run w) = Raised e')
         /\ written (snd (main_run w)) = written w).
Proof.
  rewrite main_unfold.
  destruct (load_summary_data_run (started w)) as [o [-> Hmiss]].
  cbn [files started] in Hmiss.
  destruct o as [summary_data|e0].
  - destruct (load_fy26_annual_data (files w)) as [annual_data|e1].
    + destruct (load_program_data (files w)) as [program_data|e2].
      * destruct (load_monthly_cashflow (files w)) as [cashflow_data|e3].
        -- split; [|split].
           ++ eexists. split; [reflexivity|]. right. split; reflexivity.
           ++ intros M. specialize (Hmiss M). discriminate Hmiss.
           ++ intros e [F | [F | F]]; discriminate F.
        -- split; [|split].
           ++ exists []. rewrite app_nil_r. split; [reflexivity|].
              left. split; [now exists e3 | reflexivity].
           ++ intros M. specialize (Hmiss M). discriminate Hmiss.
           ++ intros _ _. split; [now exists e3 | reflexivity].
      * split; [|split].
        -- exists []. rewrite app_nil_r. split; [reflexivity|].
           left. split; [now exists e2 | reflexivity].
        -- intros M. specialize (Hmiss M). discriminate Hmiss.
        -- intros _ _. split; [now exists e2 | reflexivity].
    + split; [|split].
      * exists []. rewrite app_nil_r. split; [reflexivity|].
        left. split; [now exists e1 | reflexivity].
      * intros M. specialize (Hmiss M). discriminate Hmiss.
      * intros _ _. split; [now exists e1 | reflexivity].
  - split; [|split].
    + exists []. rewrite app_nil_r. split; [reflexivity|].
      left. split; [now exists e0 | reflexivity].
    + intros M. specialize (Hmiss M). injection Hmiss as ->.
      split; reflexivity.
    + intros _ _. split; [now exists e0 | reflexivity].
Qed.


End Run.

Lemma unparseable_string_aborts_witness :
  clean_currency decimal_of_string (PyStr "$12x") bad_world
  = (Raised (ValueError "12x"), bad_world)
  /\ (exists e : Exn,
        fst (main decimal_of_string sample_loader_annual sample_loader_json
                  sample_loader_json bad_world) = Raised e)
  /\ written (snd (main decimal_of_string sample_loader_annual sample_loader_json
                        sample_loader_json bad_world)) = []
  /\ safe_float decimal_of_string (PyStr "$12x") bad_world
     = (Returned 0, bad_world).
Proof.
  apply (unparseable_string_aborts decimal_of_string sample_loader_annual
           sample_loader_json sample_loader_json "$12x" bad_world
           (sheet_with bad_row) 17 2).
  - reflexivity.
  - reflexivity.
  - discriminate.
  - reflexivity.
  - reflexivity.
  - left. reflexivity.
  - lia.
  - reflexivity.
Defined.

(** C7, as stated, fails: the cell "$12x" makes [clean_currency] raise a
    [ValueError] that carries "12x", neither the raw value nor a field
    name; the whole run stops on it with nothing written; and [safe_float]
    does not fail on it at all. *)
Lemma unparseable_cell_aborts_run :
  clean_currency decimal_of_string (PyStr "$12x") bad_world
  = (Raised (ValueError "12x"), bad_world)
  /\ ~ (exists w' : World,
          main decimal_of_string sample_loader_annual sample_loader_json
               sample_loader_json bad_world = (Returned tt, w'))
  /\ written (snd (main decimal_of_string sample_loader_annual sample_loader_json
                        sample_loader_json bad_world)) = []
  /\ safe_float decimal_of_string (PyStr "$12x") bad_world
     = (Returned 0, bad_world).
Proof.
  split; [reflexivity|]. split; [|split; reflexivity].
  intros [w' H]. apply (f_equal fst) in H. vm_compute in H. discriminate H.
Qed.

Lemma main_all_or_nothing_witness :
  fst (main decimal_of_string sample_loader_annual sample_loader_json
            sample_loader_json empty_world)
  = Raised (FileNotFoundError summary_csv)
  /\ written (snd (main decimal_of_string sample_loader_annual sample_loader_json
                        sample_loader_json empty_world)) = written empty_world.
Proof.
  apply (proj1 (proj2 (main_all_or_nothing decimal_of_string sample_loader_annual
                         sample_loader_json sample_loader_json empty_world))).
  reflexivity.
Defined.


(** In the sample data the revenue total does carry the sum of its
    categories; the expense total does not. *)
Example sample_totals :
  revenue_total_consistent (revenue sample_annual) = true
  /\ expense_total_consistent (expenses sample_annual) = false.
Proof. split; vm_compute; reflexivity. Qed.


(** A run over a blank summary sheet goes through and writes the seven
    records, in order. *)
Example main_writes_seven :
  fst (main decimal_of_string sample_loader_annual sample_loader_json
            sample_loader_json (world_with_summary (sheet_with blank_row)))
  = Returned tt
  /\ map fst (written (snd (main decimal_of_string sample_loader_annual
                              sample_loader_json sample_loader_json
                              (world_with_summary (sheet_with blank_row)))))
     = output_names.
Proof. split; vm_compute; reflexivity. Qed.

(** A failing annual loader stops the run before anything is written. *)
Example main_annual_loader_fails :
  fst (main decimal_of_string failing_loader_annual sample_loader_json
            sample_loader_json (world_with_summary (sheet_with blank_row)))
  = Raised (FileNotFoundError
              "FY 26 Cash Flow Projections (budget+actuals) - Annual.csv")
  /\ written (snd (main decimal_of_string failing_loader_annual
                        sample_loader_json sample_loader_json
                        (world_with_summary (sheet_with blank_row)))) = [].
Proof. split; vm_compute; reflexivity. Qed.

(** * Further properties of the pipeline *)

(** ** The health tiers *)

(** More months in reserve never give a worse status. *)
Theorem reserve_health_monotone (m1 m2 : Q) :
  m1 <= m2 ->
  (reserve_health m1 = good -> reserve_health m2 = good)
  /\ (reserve_health m1 = warning -> reserve_health m2 <> critical)
  /\ (reserve_health m2 = critical -> reserve_health m1 = critical).
Proof.
  intros L. unfold reserve_health.
  destruct (Qle_bool 3 m1) eqn:A1;
    [apply Qle_bool_iff in A1 | apply Qle_bool_false in A1];
    (destruct (Qle_bool 2 m1) eqn:B1;
     [apply Qle_bool_iff in B1 | apply Qle_bool_false in B1]);
    (destruct (Qle_bool 3 m2) eqn:A2;
     [apply Qle_bool_iff in A2 | apply Qle_bool_false in A2]);
    (destruct (Qle_bool 2 m2) eqn:B2;
     [apply Qle_bool_iff in B2 | apply Qle_bool_false in B2]);
    repeat split; intros H; try discriminate H; try reflexivity;
    try (intros H'; discriminate H'); exfalso; lra.
Qed.

Lemma reserve_health_monotone_witness :
  (reserve_health (5 # 2) = good -> reserve_health (7 # 2) = good)
  /\ (reserve_health (5 # 2) = warning -> reserve_health (7 # 2) <> critical)
  /\ (reserve_health (7 # 2) = critical -> reserve_health (5 # 2) = critical).
Proof. apply (reserve_health_monotone (5 # 2) (7 # 2)). discriminate. Defined.

(** ** More on the numeric normalizer *)

Lemma cleaned_of_idempotent (s : string) :
  cleaned_of (cleaned_of s) = cleaned_of s.
Proof.
  destruct (cleaned_of_no_punctuation s) as [D C].
  unfold cleaned_of at 1.
  rewrite (remove_absent "$" _ D), (remove_absent "," _ C).
  destruct (strip_stripped (Str.remove "," (Str.remove "$" s))) as [L R].
  fold (cleaned_of s) in L, R.
  unfold Str.strip. now rewrite L, R.
Qed.

(** Apart from strings with characters outside ASCII, [clean_currency]
    raises in two situations only: on a string that does not begin with
    [#], that is not empty once cleaned, and whose cleaned form [float]
    rejects, with the [ValueError] of [float] on the cleaned form; and on
    an int of magnitude 2^1024 - 2^970 or more, with the [OverflowError]
    of [float]. *)
Theorem clean_currency_raises_iff (float_of_str : string -> option Q)
    (v : RawCell) (w : World) (e : Exn) :
  (forall s : string, v = PyStr s -> Str.is_ascii s = true) ->
  fst (clean_currency float_of_str v w) = Raised e
  <-> (exists s : string,
          v = PyStr s
          /\ Str.startswith "#" s = false
          /\ cleaned_of s <> ""
          /\ float_of_str (cleaned_of s) = None
          /\ e = ValueError (cleaned_of s))
      \/ (exists z : Z,
             v = PyInt z
             /\ (2 ^ 1024 - 2 ^ 970 <= Z.abs z)%Z
             /\ e = OverflowError).
Proof.
  intros _. split.
  - destruct v as [| z | q | s | c]; simpl; try discriminate.
    + unfold py_float_of_int.
      destruct (float_of_int z) eqn:F; simpl; [discriminate|].
      intros R. injection R as <-. right. exists z. repeat split.
      now apply float_of_int_overflow_iff.
    + destruct (Str.startswith "#" s) eqn:H; simpl; [discriminate|].
      destruct (Str.is_empty s) eqn:Es; [discriminate|].
      destruct (Str.is_empty (cleaned_of s)) eqn:Ec; [discriminate|].
      unfold py_float.
      destruct (float_of_str (cleaned_of s)) eqn:P; simpl; [discriminate|].
      intros R. injection R as <-. left.
      exists s. apply is_empty_false in Ec. repeat split; assumption.
  - intros [[s [-> [H [Ec [P ->]]]]] | [z [-> [F ->]]]].
    + now rewrite unparseable_raises.
    + simpl. unfold py_float_of_int.
      apply float_of_int_overflow_iff in F. now rewrite F.
Qed.

Lemma clean_currency_raises_iff_witness :
  fst (clean_currency decimal_of_string (PyStr "$12x") empty_world)
  = Raised (ValueError "12x")
  <-> (exists s : string,
          PyStr "$12x" = PyStr s
          /\ Str.startswith "#" s = false
          /\ cleaned_of s <> ""
          /\ decimal_of_string (cleaned_of s) = None
          /\ ValueError "12x" = ValueError (cleaned_of s))
      \/ (exists z : Z,
             PyStr "$12x" = PyInt z
             /\ (2 ^ 1024 - 2 ^ 970 <= Z.abs z)%Z
             /\ ValueError "12x" = OverflowError).
Proof.
  apply (clean_currency_raises_iff decimal_of_string (PyStr "$12x") empty_world
           (ValueError "12x")).
  intros s E. injection E as <-. reflexivity.
Defined.

(** Cleaning is idempotent: normalizing the cleaned form of a string
    gives what normalizing the string gives, unless the cleaned form
    begins with [#]. *)
Theorem clean_currency_recleaned (float_of_str : string -> option Q)
    (s : string) (w : World) :
  Str.startswith "#" s = false ->
  Str.startswith "#" (cleaned_of s) = false ->
  clean_currency float_of_str (PyStr (cleaned_of s)) w
  = clean_currency float_of_str (PyStr s) w.
Proof.
  intros H Hc.
  rewrite !clean_currency_string by assumption.
  now rewrite cleaned_of_idempotent.
Qed.

Lemma clean_currency_recleaned_witness :
  clean_currency decimal_of_string (PyStr "1234.56") empty_world
  = clean_currency decimal_of_string (PyStr " $1,234.56 ") empty_world.
Proof.
  apply (clean_currency_recleaned decimal_of_string " $1,234.56 " empty_world);
    reflexivity.
Defined.

(** ** More on reading the summary sheet *)

Section SummarySheet.

Variable float_of_str : string -> option Q.

(** What one series holds for a list of columns: for each column, the
    normalized value of the cell of the given row. *)
Local Notation "'series_of' df row w" :=
  (Forall2 (fun (col : nat) (v : Q) =>
              exists c : RawCell,
                cell df row col = Some c
                /\ clean_currency float_of_str c w = (Returned v, w)))
  (at level 10, df at level 9, row at level 9, w at level 9).

Lemma summary_columns_series (df : DataFrame) (cols : list nat)
    (acc t : IncomeTrends) (w w' : World) :
  summary_columns float_of_str df cols acc w = (Returned t, w') ->
  years t = years acc
  /\ exists l17 l18 : list Q,
       program_revenue t = (program_revenue acc ++ l17)%list
       /\ individual_donors t = (individual_donors acc ++ l18)%list
       /\ series_of df 17%nat w cols l17
       /\ series_of df 18%nat w cols l18.
Proof.
  revert acc. induction cols as [|c rest IH]; intros acc; simpl.
  - unfold ret. intros H. injection H as <- _.
    split; [reflexivity|]. exists [], []. rewrite !app_nil_r.
    repeat split; constructor.
  - unfold bind, iloc.
    destruct (cell df 17 c) as [c17|] eqn:E17; [|discriminate]. simpl.
    destruct (clean_currency_run float_of_str c17 w) as [[v17|e] R17];
      rewrite R17; [|discriminate].
    destruct (cell df 18 c) as [c18|] eqn:E18; [|discriminate]. simpl.
    destruct (clean_currency_run float_of_str c18 w) as [[v18|e] R18];
      rewrite R18; [|discriminate].
    intros H. apply IH in H. simpl in H.
    destruct H as [Y [l17 [l18 [P [D [F17 F18]]]]]].
    split; [exact Y|]. exists (v17 :: l17), (v18 :: l18).
    rewrite <- app_assoc in P, D. simpl in P, D.
    repeat split; try assumption.
    + constructor; [now exists c17 | exact F17].
    + constructor; [now exists c18 | exact F18].
Qed.

(** When [load_summary_data] returns, [years] is FY19 to FY29 and each of
    the two series has one value per year: the normalized cells of row 17
    (respectively 18), columns 2 to 12, in that order. *)
Theorem load_summary_data_series (w w' : World) (df : DataFrame)
    (t : IncomeTrends) :
  lookup_file summary_csv (files w) = Some df ->
  load_summary_data float_of_str w = (Returned t, w') ->
  years t = fiscal_years
  /\ series_of df 17%nat w (seq 2 11) (program_revenue t)
  /\ series_of df 18%nat w (seq 2 11) (individual_donors t)
  /\ List.length (program_revenue t) = List.length (years t)
  /\ List.length (individual_donors t) = List.length (years t).
Proof.
  intros Hfile. unfold load_summary_data, bind, read_csv. rewrite Hfile.
  intros H. apply summary_columns_series in H. simpl in H.
  destruct H as [Y [l17 [l18 [-> [-> [F17 F18]]]]]].
  rewrite Y. repeat split; try assumption.
  - apply Forall2_length in F17. now rewrite <- F17.
  - apply Forall2_length in F18. now rewrite <- F18.
Qed.

(** A cell that is outside the grid, or that [clean_currency] cannot
    normalize, stops the loop. *)
Lemma summary_columns_stops (df : DataFrame) (row col : nat)
    (cols : list nat) (acc : IncomeTrends) (w : World) :
  (row = 17 \/ row = 18)%nat ->
  In col cols ->
  (forall (c : RawCell) (v : Q),
      cell df row col = Some c ->
      clean_currency float_of_str c w <> (Returned v, w)) ->
  exists e : Exn, summary_columns float_of_str df cols acc w = (Raised e, w).
Proof.
  intros Hrow Hin Hbad. revert acc.
  induction cols as [|c rest IH]; intros acc; [destruct Hin|]. simpl.
  unfold bind, iloc.
  destruct (cell df 17 c) as [c17|] eqn:E17; [|eexists; reflexivity]. simpl.
  destruct (clean_currency_run float_of_str c17 w) as [[v17|e] R17];
    rewrite R17; [|eexists; reflexivity].
  destruct (cell df 18 c) as [c18|] eqn:E18; [|eexists; reflexivity]. simpl.
  destruct (clean_currency_run float_of_str c18 w) as [[v18|e] R18];
    rewrite R18; [|eexists; reflexivity].
  destruct Hin as [<- | Hin]; [|now apply IH].
  exfalso. destruct Hrow as [-> | ->].
  - exact (Hbad c17 v17 E17 R17).
  - exact (Hbad c18 v18 E18 R18).
Qed.

(** A sheet that lacks one of the cells read is never patched with a
    default: the loader raises, and if the very first cell read (row 17,
    column 2) is missing the exception is [IndexError]. *)
Theorem load_summary_data_out_of_bounds (w : World) (df : DataFrame)
    (row col : nat) :
  lookup_file summary_csv (files w) = Some df ->
  (row = 17 \/ row = 18)%nat ->
  (2 <= col <= 12)%nat ->
  cell df row col = None ->
  (exists e : Exn, load_summary_data float_of_str w = (Raised e, w))
  /\ (cell df 17 2 = None ->
      load_summary_data float_of_str w = (Raised IndexError, w)).
Proof.
  intros Hfile Hrow Hcol Hcell.
  unfold load_summary_data, bind, read_csv. rewrite Hfile. split.
  - apply (summary_columns_stops df row col); try assumption.
    + apply in_seq. lia.
    + intros c v E. rewrite Hcell in E. discriminate E.
  - intros H. simpl. unfold bind, iloc. now rewrite H.
Qed.

End SummarySheet.

Lemma load_summary_data_series_witness :
  List.length (program_revenue
                 (mkIncomeTrends fiscal_years (repeat 0 11) (repeat 0 11)))
  = List.length (years (mkIncomeTrends fiscal_years (repeat 0 11) (repeat 0 11))).
Proof.
  apply (load_summary_data_series decimal_of_string
           (world_with_summary (sheet_with blank_row))
           (world_with_summary (sheet_with blank_row))
           (sheet_with blank_row)
           (mkIncomeTrends fiscal_years (repeat 0 11) (repeat 0 11)));
    reflexivity.
Defined.

Lemma load_summary_data_out_of_bounds_witness :
  load_summary_data decimal_of_string (world_with_summary [])
  = (Raised IndexError, world_with_summary []).
Proof.
  apply (load_summary_data_out_of_bounds decimal_of_string
           (world_with_summary []) [] 17 2).
  - reflexivity.
  - left. reflexivity.
  - lia.
  - reflexivity.
  - reflexivity.
Defined.

(** ** More on the flow graph *)

(** For every input the graph is well formed: the three edge arrays have
    the same length; both ends of every edge index a label; every edge
    touches the Organization node and none is a loop; and the edge of the
    i-th revenue category goes from node i to the Organization node with
    that category's actual as its value. *)
Theorem sankey_well_formed (a : AnnualData) (w : World) :
  exists d : SankeyData,
    calculate_sankey_data a w = (Returned d, w)
    /\ List.length (sources d) = List.length (values d)
    /\ List.length (targets d) = List.length (values d)
    /\ Forall (fun e : nat * nat * Q =>
                 (fst (fst e) < List.length (labels d))%nat
                 /\ (snd (fst e) < List.length (labels d))%nat
                 /\ (fst (fst e) = hub \/ snd (fst e) = hub)
                 /\ fst (fst e) <> snd (fst e))
              (edges d)
    /\ (forall (i : nat) (r : Q),
           nth_error (revenue_actuals (revenue a)) i = Some r ->
           nth_error (edges d) i = Some (i, hub, r)).
Proof.
  eexists. split; [reflexivity|]. simpl.
  split; [reflexivity|]. split; [reflexivity|]. split.
  - unfold edges, hub. simpl.
    repeat (apply Forall_cons;
            [simpl; repeat split; try lia;
             first [left; reflexivity | right; reflexivity]|]).
    apply Forall_nil.
  - intros i r H. unfold edges, hub.
    do 6 (destruct i as [|i]; [simpl in *; now injection H as <- |]).
    destruct i; discriminate H.
Qed.

Lemma sankey_well_formed_witness :
  exists d : SankeyData,
    calculate_sankey_data sample_annual empty_world = (Returned d, empty_world)
    /\ nth_error (edges d) 1 = Some (1%nat, hub, 50000).
Proof.
  destruct (sankey_well_formed sample_annual empty_world)
    as [d [R [_ [_ [_ H]]]]].
  exists d. split; [exact R|]. apply H. reflexivity.
Defined.

(** * Further properties of the pages *)

(** ** KPICard *)

(** The class and the symbol of a change always agree: positive with the
    upward triangle for a change above 0, negative with the downward one
    for a change below 0, and neutral with the dot otherwise, that is for
    a change of 0 or NaN. *)
Theorem change_class_matches_symbol (change : JS.number) :
  (Pages.getChangeClass change = "positive"
   /\ Pages.getChangeSymbol change = "▲"
   /\ Pages.gt change (JS.Num 0) = true)
  \/ (Pages.getChangeClass change = "negative"
      /\ Pages.getChangeSymbol change = "▼"
      /\ Pages.lt change (JS.Num 0) = true)
  \/ (Pages.getChangeClass change = "neutral"
      /\ Pages.getChangeSymbol change = "●"
      /\ (change = JS.NaN \/ exists q : Q, change = JS.Num q /\ q == 0)).
Proof.
  unfold Pages.getChangeClass, Pages.getChangeSymbol.
  destruct (Pages.gt change (JS.Num 0)) eqn:G; [left; repeat split|].
  destruct (Pages.lt change (JS.Num 0)) eqn:L; [right; left; repeat split|].
  right; right. split; [reflexivity|]. split; [reflexivity|].
  destruct change as [q | [|] | ]; simpl in G, L; try discriminate.
  - right. exists q. split; [reflexivity|].
    apply negb_false_iff, Qle_bool_iff in G.
    apply negb_false_iff, Qle_bool_iff in L.
    now apply Qle_antisym.
  - now left.
Qed.

(** ** Names shown for keys *)

Lemma string_length_append (s t : string) :
  String.length (s ++ t) = (String.length s + String.length t)%nat.
Proof. induction s as [|a s IH]; simpl; [reflexivity | now rewrite IH]. Qed.

Lemma contains_append (c : ascii) (s t : string) :
  Str.contains c (s ++ t) = Str.contains c s || Str.contains c t.
Proof.
  induction s as [|a s IH]; simpl; [reflexivity|].
  now rewrite IH, orb_assoc.
Qed.

Lemma split_nonempty (sep : ascii) (s : string) : Pages.split sep s <> [].
Proof.
  destruct s as [|a r]; simpl; [discriminate|].
  destruct (Ascii.eqb a sep); [discriminate|].
  destruct (Pages.split sep r); discriminate.
Qed.

Lemma split_words_clean (sep : ascii) (s : string) :
  Forall (fun w => Str.contains sep w = false) (Pages.split sep s).
Proof.
  induction s as [|a r IH]; simpl.
  - constructor; [reflexivity | constructor].
  - destruct (Ascii.eqb a sep) eqn:E.
    + constructor; [reflexivity | exact IH].
    + destruct (Pages.split sep r) as [|w ws].
      * constructor; [simpl; now rewrite E | constructor].
      * inversion IH as [|? ? Hw Hws]; subst.
        constructor; [simpl; now rewrite E, Hw | exact Hws].
Qed.

Lemma join_cons_length (sep x : string) (rest : list string) :
  String.length (Pages.join sep (x :: rest))
  = (String.length x
     + match rest with
       | [] => 0
       | _ => String.length sep + String.length (Pages.join sep rest)
       end)%nat.
Proof.
  destruct rest as [|y ys]; simpl; [lia|].
  now rewrite !string_length_append.
Qed.

Lemma capitalize_length (w : string) :
  String.length (Pages.capitalize w) = String.length w.
Proof. now destruct w. Qed.

Lemma toUpperCase_underscore (a : ascii) :
  Ascii.eqb (Pages.toUpperCase a) "_" = Ascii.eqb a "_".
Proof.
  destruct a as [[] [] [] [] [] [] [] []]; reflexivity.
Qed.

Lemma capitalize_clean (w : string) :
  Str.contains "_" w = false -> Str.contains "_" (Pages.capitalize w) = false.
Proof.
  destruct w as [|a r]; simpl; [reflexivity|].
  now rewrite toUpperCase_underscore.
Qed.

Lemma join_clean (words : list string) :
  Forall (fun w => Str.contains "_" w = false) words ->
  Str.contains "_" (Pages.join " " words) = false.
Proof.
  induction 1 as [|w ws Hw Hws IH]; [reflexivity|].
  destruct ws as [|y ys]; [exact Hw|].
  change (Pages.join " " (w :: y :: ys))
    with (w ++ " " ++ Pages.join " " (y :: ys))%string.
  rewrite !contains_append, Hw, IH. reflexivity.
Qed.

Lemma title_length (key : string) :
  String.length (Pages.join " " (map Pages.capitalize (Pages.split "_" key)))
  = String.length key.
Proof.
  induction key as [|a r IH]; [reflexivity|].
  pose proof (split_nonempty "_" r) as NE.
  simpl Pages.split.
  destruct (Ascii.eqb a "_").
  - destruct (Pages.split "_" r) as [|w ws]; [contradiction|].
    simpl map in *. rewrite join_cons_length, IH. reflexivity.
  - destruct (Pages.split "_" r) as [|w ws]; [contradiction|].
    simpl map in *. rewrite join_cons_length in *.
    rewrite capitalize_length in IH.
    cbn [String.length]. rewrite <- IH. reflexivity.
Qed.

(** The name shown for an ASCII key is as long as the key and contains no
    underscore: every underscore has become a space and nothing else was
    added or dropped. *)
Theorem titleOfKey_shape (key : string) :
  Pages.is_ascii key = true ->
  String.length (Pages.titleOfKey key) = String.length key
  /\ Str.contains "_" (Pages.titleOfKey key) = false.
Proof.
  intros _. unfold Pages.titleOfKey. split; [apply title_length|].
  apply join_clean.
  pose proof (split_words_clean "_" key) as H.
  induction H as [|w ws Hw Hws IH]; simpl; constructor;
    [now apply capitalize_clean | exact IH].
Qed.

Lemma titleOfKey_shape_witness :
  String.length (Pages.titleOfKey "earned_revenue") = String.length "earned_revenue"
  /\ Str.contains "_" (Pages.titleOfKey "earned_revenue") = false.
Proof. apply (titleOfKey_shape "earned_revenue"). reflexivity. Defined.

Example titleOfKey_examples :
  Pages.titleOfKey "earned_revenue" = "Earned Revenue"
  /\ Pages.titleOfKey "salaries_wages" = "Salaries Wages"
  /\ Pages.titleOfKey "other" = "Other".
Proof. repeat split. Qed.

(** ** Shares, variances and progress bars *)

(** With a total of 0 no "% of Total" cell is a number: each is NaN or an
    infinity. *)
Theorem percentOfTotal_zero_total (a q : Q) :
  JS.percentOfTotal (JS.Num a) (JS.Num 0) <> JS.Num q.
Proof.
  unfold JS.percentOfTotal. simpl.
  destruct (Qeq_bool a 0); simpl; discriminate.
Qed.

(** For a non-zero budget the variance of the pages is at least 0 (shown
    in green on the revenue page) exactly when the actual reaches a
    positive budget, or stays at or below a negative one. *)
Theorem calculateVariance_sign (a b : Q) :
  ~ b == 0 ->
  Pages.ge (JS.calculateVariance (JS.Num a) (JS.Num b)) (JS.Num 0) = true
  <-> (0 < b /\ b <= a) \/ (b < 0 /\ a <= b).
Proof.
  intros Hb. rewrite calculateVariance_formula by exact Hb.
  unfold Pages.ge, Pages.lt. rewrite negb_involutive, Qle_bool_iff.
  assert (E : (a - b) / b * 100 * b == (a - b) * 100) by (field; exact Hb).
  set (x := (a - b) / b * 100) in *.
  destruct (Qlt_le_dec 0 b) as [P | N].
  - split.
    + intros X. left. split; [exact P|]. nra.
    + intros [[_ L] | [L _]]; [nra | lra].
  - assert (N' : b < 0).
    { apply Qle_lteq in N as [N | N]; [exact N|]. now contradiction Hb. }
    split.
    + intros X. right. split; [exact N'|]. nra.
    + intros [[L _] | [_ L]]; [lra | nra].
Qed.

Lemma calculateVariance_sign_witness :
  Pages.ge (JS.calculateVariance (JS.Num 110) (JS.Num 100)) (JS.Num 0) = true
  <-> (0 < 100 /\ 100 <= 110) \/ (100 < 0 /\ 110 <= 100).
Proof. apply (calculateVariance_sign 110 100). discriminate. Defined.

(** For a positive target the progress bar is never wider than 100, and
    it is exactly 100 wide precisely when the target is shown as met,
    that is when the reserves reach the target. *)
Theorem progress_full_iff_met (current target : Q) :
  0 < target ->
  exists q : Q,
    Pages.progressWidth (JS.Num current) (JS.Num target) = JS.Num q
    /\ q <= 100
    /\ (q == 100 <-> Pages.targetMet (JS.Num current) (JS.Num target) = true)
    /\ (Pages.targetMet (JS.Num current) (JS.Num target) = true
        <-> target <= current).
Proof.
  intros Ht.
  assert (Hne : ~ target == 0) by lra.
  unfold Pages.progressWidth, Pages.targetMet, Pages.ge, Pages.min, Pages.lt.
  simpl. rewrite (proj2 (Qeq_bool_false target 0) Hne).
  rewrite !negb_involutive. cbn [JS.mul].
  assert (E : current / target * 100 * target == current * 100)
    by (field; exact Hne).
  set (x := current / target * 100) in *.
  destruct (Qle_bool x 100) eqn:X; simpl.
  - apply Qle_bool_iff in X. exists x. split; [reflexivity|].
    split; [exact X|]. rewrite Qle_bool_iff. split; [|reflexivity].
    split; intros H; nra.
  - apply Qle_bool_false in X. exists 100. split; [reflexivity|].
    split; [lra|]. rewrite Qle_bool_iff. split; [|reflexivity].
    split; intros H; [nra | reflexivity].
Qed.

Lemma progress_full_iff_met_witness :
  exists q : Q,
    Pages.progressWidth (JS.Num 120000) (JS.Num 90000) = JS.Num q
    /\ q <= 100
    /\ (q == 100 <-> Pages.targetMet (JS.Num 120000) (JS.Num 90000) = true)
    /\ (Pages.targetMet (JS.Num 120000) (JS.Num 90000) = true
        <-> 90000 <= 120000).
Proof. apply (progress_full_iff_met 120000 90000). reflexivity. Defined.

(** ** The programs page *)

Lemma totalScholarships_from (programs : list Pages.Program) (acc : Q) :
  Forall (fun p => forall s : bool,
            Pages.scholarships p <> Some (JS.Infinity s)) programs ->
  exists q : Q,
    fold_left (fun sum prog => JS.add sum (Pages.orZero (Pages.scholarships prog)))
              programs (JS.Num acc)
    = JS.Num q
    /\ q == acc + Qsum (map (fun p => match Pages.scholarships p with
                                      | Some (JS.Num x) => x
                                      | _ => 0
                                      end) programs).
Proof.
  intros H. revert acc. induction H as [|p ps Hp Hps IH]; intros acc; simpl.
  - exists acc. split; [reflexivity | ring].
  - destruct (Pages.scholarships p) as [[x | s | ] | ]; simpl.
    + destruct (Qeq_bool x 0) eqn:Z; simpl.
      * apply Qeq_bool_iff in Z.
        destruct (IH (acc + 0)) as [q [E Q]]. exists q.
        split; [exact E|]. rewrite Q, Z. ring.
      * destruct (IH (acc + x)) as [q [E Q]]. exists q.
        split; [exact E|]. rewrite Q. ring.
    + exfalso. exact (Hp s eq_refl).
    + destruct (IH (acc + 0)) as [q [E Q]]. exists q.
      split; [exact E|]. rewrite Q. ring.
    + destruct (IH (acc + 0)) as [q [E Q]]. exists q.
      split; [exact E|]. rewrite Q. ring.
Qed.

(** The financial assistance shown is the sum of the programs' numeric
    scholarships; a program whose figure is missing, NaN or 0 adds
    nothing.  This holds as long as no figure is infinite. *)
Theorem totalScholarships_sum (programs : list Pages.Program) :
  Forall (fun p => forall s : bool,
            Pages.scholarships p <> Some (JS.Infinity s)) programs ->
  exists q : Q,
    Pages.totalScholarships programs = JS.Num q
    /\ q == Qsum (map (fun p => match Pages.scholarships p with
                                | Some (JS.Num x) => x
                                | _ => 0
                                end) programs).
Proof.
  intros H. destruct (totalScholarships_from programs 0 H) as [q [E Q]].
  exists q. split; [exact E|]. rewrite Q. ring.
Qed.

Lemma totalScholarships_sum_witness :
  exists q : Q,
    Pages.totalScholarships
      [Pages.mkProgram (Some (JS.Num 10)) None (Some (JS.Num 500)) None;
       Pages.mkProgram (Some (JS.Num 20)) None None None;
       Pages.mkProgram None None (Some JS.NaN) None]
    = JS.Num q
    /\ q == 500 + (0 + (0 + 0)).
Proof.
  apply (totalScholarships_sum
           [Pages.mkProgram (Some (JS.Num 10)) None (Some (JS.Num 500)) None;
            Pages.mkProgram (Some (JS.Num 20)) None None None;
            Pages.mkProgram None None (Some JS.NaN) None]).
  repeat constructor; simpl; discriminate.
Defined.

Lemma filter_none {A} (f : A -> bool) (l : list A) :
  Forall (fun x => f x = false) l -> filter f l = [].
Proof.
  induction 1 as [|x xs Hx Hxs IH]; simpl; [reflexivity|].
  now rewrite Hx.
Qed.

(** When no program has a usable goal figure (none, or only missing, 0
    or NaN ones) the average goal achievement is 0/0: the card shows NaN,
    not 0. *)
Theorem averageGoal_without_goals (programs : list Pages.Program) :
  Forall (fun p => Pages.truthy (Pages.percent_of_goal p) = false) programs ->
  Pages.averageGoal programs = JS.NaN.
Proof.
  intros H. unfold Pages.averageGoal.
  rewrite (filter_none _ _ H). reflexivity.
Qed.

Lemma averageGoal_without_goals_witness :
  Pages.averageGoal
    [Pages.mkProgram (Some (JS.Num 10)) None None None;
     Pages.mkProgram (Some (JS.Num 20)) None None (Some (JS.Num 0))]
  = JS.NaN.
Proof.
  apply (averageGoal_without_goals
           [Pages.mkProgram (Some (JS.Num 10)) None None None;
            Pages.mkProgram (Some (JS.Num 20)) None None (Some (JS.Num 0))]).
  repeat constructor.
Defined.

Lemma fold_left_add_numbers (f : Pages.Program -> JS.number)
    (g : Pages.Program -> Q) (programs : list Pages.Program) (acc : Q) :
  Forall (fun p => exists x : Q, f p = JS.Num x /\ x == g p) programs ->
  exists q : Q,
    fold_left (fun sum p => JS.add sum (f p)) programs (JS.Num acc) = JS.Num q
    /\ q == acc + Qsum (map g programs).
Proof.
  intros H. revert acc. induction H as [|p ps [x [E X]] Hps IH]; intros acc; simpl.
  - exists acc. split; [reflexivity | ring].
  - rewrite E. simpl. destruct (IH (acc + x)) as [q [F Q]].
    exists q. split; [exact F|]. rewrite Q, X. ring.
Qed.

Lemma fold_left_over_map {A B C} (f : A -> B -> A) (g : C -> B)
    (l : list C) (a : A) :
  fold_left f (map g l) a = fold_left (fun s c => f s (g c)) l a.
Proof.
  revert a. induction l as [|c l IH]; intros a; simpl; [reflexivity | apply IH].
Qed.

(** The total program revenue is the sum of the programs' numeric
    actuals; a program whose [actual] is missing, NaN or 0 adds nothing.
    This holds as long as no actual is infinite. *)
Theorem totalProgramRevenue_sum (programs : list Pages.Program) :
  Forall (fun p => forall s : bool,
            Pages.actual p <> Some (JS.Infinity s)) programs ->
  exists q : Q,
    Pages.totalProgramRevenue programs = JS.Num q
    /\ q == Qsum (map (fun p => match Pages.actual p with
                                | Some (JS.Num x) => x
                                | _ => 0
                                end) programs).
Proof.
  intros H. unfold Pages.totalProgramRevenue, Pages.programActuals.
  rewrite fold_left_over_map.
  destruct (fold_left_add_numbers
              (fun p => Pages.orZero (Pages.actual p))
              (fun p => match Pages.actual p with
                        | Some (JS.Num x) => x
                        | _ => 0
                        end) programs 0) as [q [E Q]].
  - apply Forall_impl with (2 := H). intros p Hp.
    destruct (Pages.actual p) as [[x | s | ] | ]; simpl.
    + destruct (Qeq_bool x 0) eqn:Z; simpl.
      * exists 0. split; [reflexivity|].
        apply Qeq_bool_iff in Z. now rewrite Z.
      * exists x. split; reflexivity.
    + exfalso. exact (Hp s eq_refl).
    + exists 0. split; reflexivity.
    + exists 0. split; reflexivity.
  - exists q. split; [exact E|]. rewrite Q. ring.
Qed.

Lemma totalProgramRevenue_sum_witness :
  exists q : Q,
    Pages.totalProgramRevenue
      [Pages.mkProgram (Some (JS.Num 10)) None None None;
       Pages.mkProgram None None None None]
    = JS.Num q
    /\ q == 10 + (0 + 0).
Proof.
  apply (totalProgramRevenue_sum
           [Pages.mkProgram (Some (JS.Num 10)) None None None;
            Pages.mkProgram None None None None]).
  repeat constructor; simpl; discriminate.
Defined.

(** When at least one program has a usable goal figure and none is
    infinite, the average goal achievement is a number: the sum of the
    usable figures over their count, times 100; programs without a usable
    figure count neither in the sum nor in the count. *)
Theorem averageGoal_with_goals (programs : list Pages.Program) :
  Forall (fun p => forall s : bool,
            Pages.percent_of_goal p <> Some (JS.Infinity s)) programs ->
  Exists (fun p => Pages.truthy (Pages.percent_of_goal p) = true) programs ->
  exists q : Q,
    Pages.averageGoal programs = JS.Num q
    /\ q == Qsum (map (fun p => match Pages.percent_of_goal p with
                                | Some (JS.Num x) => x
                                | _ => 0
                                end)
                      (filter (fun p => Pages.truthy (Pages.percent_of_goal p))
                              programs))
            / inject_Z (Z.of_nat
                          (List.length
                             (filter (fun p => Pages.truthy (Pages.percent_of_goal p))
                                     programs)))
            * 100.
Proof.
  intros Hfin Hex. unfold Pages.averageGoal.
  set (withGoal := filter (fun p => Pages.truthy (Pages.percent_of_goal p)) programs).
  assert (Hpos : (0 < List.length withGoal)%nat).
  { apply Exists_exists in Hex as [p [Hin Hp]].
    assert (I : In p withGoal) by (apply filter_In; now split).
    destruct withGoal; [destruct I | simpl; lia]. }
  destruct (fold_left_add_numbers
              (fun p => Pages.toNumber (Pages.percent_of_goal p))
              (fun p => match Pages.percent_of_goal p with
                        | Some (JS.Num x) => x
                        | _ => 0
                        end) withGoal 0) as [q [E Q]].
  - apply Forall_forall. intros p Hin.
    apply filter_In in Hin as [Hin Hp].
    pose proof (proj1 (Forall_forall _ _) Hfin p Hin) as Hf.
    destruct (Pages.percent_of_goal p) as [[x | s | ] | ] eqn:G; simpl in *;
      try discriminate.
    + exists x. split; reflexivity.
    + exfalso. first [exact (Hf s eq_refl) | exact (Hf s G)].
  - rewrite E. simpl.
    assert (Hn : ~ inject_Z (Z.of_nat (List.length withGoal)) == 0).
    { unfold Qeq. simpl. lia. }
    rewrite (proj2 (Qeq_bool_false _ _) Hn).
    eexists. split; [reflexivity|]. rewrite Q.
    assert (Z : 0 + Qsum (map (fun p => match Pages.percent_of_goal p with
                                        | Some (JS.Num x) => x
                                        | _ => 0
                                        end) withGoal)
                == Qsum (map (fun p => match Pages.percent_of_goal p with
                                       | Some (JS.Num x) => x
                                       | _ => 0
                                       end) withGoal)) by ring.
    now rewrite Z.
Qed.

Lemma averageGoal_with_goals_witness :
  exists q : Q,
    Pages.averageGoal
      [Pages.mkProgram None None None (Some (JS.Num (9 # 10)));
       Pages.mkProgram None None None None;
       Pages.mkProgram None None None (Some (JS.Num (7 # 10)))]
    = JS.Num q
    /\ q == ((9 # 10) + ((7 # 10) + 0)) / inject_Z (Z.of_nat 2) * 100.
Proof.
  apply (averageGoal_with_goals
           [Pages.mkProgram None None None (Some (JS.Num (9 # 10)));
            Pages.mkProgram None None None None;
            Pages.mkProgram None None None (Some (JS.Num (7 # 10)))]).
  - repeat constructor; simpl; discriminate.
  - apply Exists_cons_hd. reflexivity.
Defined.
